(** * A shallow embedding of [pdfify.py] (PDF-Everything for Linux)

    The script converts the files of the current directory to PDF.  This
    development embeds

    - the [os.path] string functions it relies on ([basename], [dirname],
      [splitext], [join]) and [str.lower], [str.strip];
    - the three converters, [check_dependencies] and the dispatcher
      [convert_to_pdf], as computations of a small state-and-exception
      monad over a model of the host (working directory, directories,
      files with their contents, standard output, and the behaviour of the
      external programs [which] and [abiword]);
    - the loop of [main], generically over the state it threads.

    File names and paths are modelled as ASCII strings; decoded text is a
    list of Unicode code points ([Z]). *)

From Stdlib Require Import String Ascii List Bool ZArith QArith Lia.
From Stdlib Require Import Permutation.
Import ListNotations.
Open Scope list_scope.
Open Scope string_scope.

(* ------------------------------------------------------------------ *)
(** ** Python string helpers *)

Module Py.

(** [s.rfind(c)]: index of the last occurrence of [c], [-1] if none. *)
Fixpoint rfind_from (c : ascii) (s : string) (i : Z) (acc : Z) : Z :=
  match s with
  | EmptyString => acc
  | String a s' =>
      rfind_from c s' (i + 1) (if Ascii.eqb a c then i else acc)
  end.

Definition rfind (c : ascii) (s : string) : Z := rfind_from c s 0 (-1).

(** [s[i:]] and [s[:i]] for [0 <= i <= len(s)]. *)
Definition slice_from (i : Z) (s : string) : string :=
  substring (Z.to_nat i) (String.length s - Z.to_nat i) s.

Definition slice_to (i : Z) (s : string) : string :=
  substring 0 (Z.to_nat i) s.

Definition char_at (i : Z) (s : string) : option ascii :=
  String.get (Z.to_nat i) s.

(** [posixpath.basename]: [p[p.rfind('/') + 1:]]. *)
Definition basename (p : string) : string :=
  slice_from (rfind "/"%char p + 1) p.

(** A string made of slashes only. *)
Fixpoint all_slashes (s : string) : bool :=
  match s with
  | EmptyString => true
  | String a s' => Ascii.eqb a "/"%char && all_slashes s'
  end.

(** [s.rstrip('/')]. *)
Fixpoint rstrip_slashes_rev (r : list ascii) : list ascii :=
  match r with
  | a :: r' => if Ascii.eqb a "/"%char then rstrip_slashes_rev r' else r
  | [] => []
  end.

Definition rstrip_slashes (s : string) : string :=
  string_of_list_ascii
    (rev (rstrip_slashes_rev (rev (list_ascii_of_string s)))).

(** [posixpath.dirname]:
    [i = p.rfind('/') + 1; head = p[:i];
     if head and head != '/'*len(head): head = head.rstrip('/')]. *)
Definition dirname (p : string) : string :=
  let head := slice_to (rfind "/"%char p + 1) p in
  if negb (String.eqb head "") && negb (all_slashes head)
  then rstrip_slashes head else head.

(** [s.startswith('/')] and [s.endswith('/')]. *)
Definition starts_with_slash (s : string) : bool :=
  match s with
  | String a _ => Ascii.eqb a "/"%char
  | EmptyString => false
  end.

Definition ends_with_slash (s : string) : bool :=
  match rev (list_ascii_of_string s) with
  | a :: _ => Ascii.eqb a "/"%char
  | [] => false
  end.

(** [posixpath.join(a, b)]. *)
Definition join (a b : string) : string :=
  if starts_with_slash b then b
  else if String.eqb a "" || ends_with_slash a then a ++ b
  else a ++ "/" ++ b.

(** The scan of [genericpath._splitext]:
    [while filenameIndex < dotIndex:
       if p[filenameIndex:filenameIndex+1] != extsep: return split
       filenameIndex += 1]. *)
Fixpoint splitext_scan (fuel : nat) (p : string) (i dot : Z) : bool :=
  match fuel with
  | O => false
  | S fuel' =>
      if (i <? dot)%Z then
        match char_at i p with
        | Some c => if Ascii.eqb c "."%char
                    then splitext_scan fuel' p (i + 1) dot else true
        | None => false
        end
      else false
  end.

(** [posixpath.splitext]. *)
Definition splitext (p : string) : string * string :=
  let sepIndex := rfind "/"%char p in
  let dotIndex := rfind "."%char p in
  if (sepIndex <? dotIndex)%Z then
    if splitext_scan (String.length p) p (sepIndex + 1) dotIndex
    then (slice_to dotIndex p, slice_from dotIndex p)
    else (p, "")
  else (p, "").

(** [str.lower] on ASCII characters. *)
Definition lower_char (c : ascii) : ascii :=
  let n := nat_of_ascii c in
  if ((65 <=? n) && (n <=? 90))%nat then ascii_of_nat (n + 32)%nat else c.

Fixpoint lower (s : string) : string :=
  match s with
  | EmptyString => EmptyString
  | String c s' => String (lower_char c) (lower s')
  end.

(** [x in [a, b, ...]] for strings. *)
Definition str_in (x : string) (l : list string) : bool :=
  existsb (String.eqb x) l.

End Py.

(* ------------------------------------------------------------------ *)
(** ** Text as code points: the line loop of [convert_txt_to_pdf] *)

Module Text.

(** The code point of a line feed. *)
Definition LF : Z := 10.

(** [for line in file]: a text-mode file (universal newlines already
    translated) yields its lines, each keeping its terminating ['\n']; the
    last line may lack it. *)
Fixpoint split_lines_acc (cur : list Z) (s : list Z) : list (list Z) :=
  match s with
  | [] => match cur with [] => [] | _ => [rev cur] end
  | c :: s' =>
      if (c =? LF)%Z then rev (c :: cur) :: split_lines_acc [] s'
      else split_lines_acc (c :: cur) s'
  end.

Definition split_lines (s : list Z) : list (list Z) := split_lines_acc [] s.

(** [ord(char) < 128]. *)
Definition is_ascii (c : Z) : bool := (c <? 128)%Z.

(** [''.join(char for char in line if ord(char) < 128)]. *)
Definition clean_line (line : list Z) : list Z := filter is_ascii line.

(** [str.isspace] on a single code point below 128: [\t \n \v \f \r],
    the separators [\x1c]..[\x1f] and the space. *)
Definition is_space (c : Z) : bool :=
  ((9 <=? c) && (c <=? 13))%Z || ((28 <=? c) && (c <=? 32))%Z.

Fixpoint lstrip (s : list Z) : list Z :=
  match s with
  | c :: s' => if is_space c then lstrip s' else s
  | [] => []
  end.

(** [str.strip()]. *)
Definition strip (s : list Z) : list Z := rev (lstrip (rev (lstrip s))).

(** The text of the cells [convert_txt_to_pdf] writes:
    [pdf.cell(0, 10, txt=clean_line.strip(), ln=True)] per line. *)
Definition text_cells (content : list Z) : list (list Z) :=
  map (fun line => strip (clean_line line)) (split_lines content).

End Text.

(* ------------------------------------------------------------------ *)
(** ** The PDF object of [fpdf] (pyfpdf 1.7): the part the script uses *)

Module Fpdf.

Inductive orientation := Portrait | Landscape.
Inductive unit_ := Pt | Mm | Cm | In.
Inductive page_format := A4 | Size (w h : Q).

(** The scale factor [k] of each unit, in points per unit. *)
Definition unit_k (u : unit_) : Q :=
  match u with
  | Pt => 1
  | Mm => 720 # 254
  | Cm => 7200 # 254
  | In => 72
  end.

(** An image placed by [pdf.image(name, x, y, w, h)]. *)
Record placed := Placed {
  img_path : string;
  img_mode : string;
  img_x : Q; img_y : Q; img_w : Q; img_h : Q }.

Record fpdf := Fpdf {
  k : Q;
  w_pt : Q;
  h_pt : Q;
  pages : nat;
  font : option (string * Z);
  cells : list (list Z);
  images : list placed }.

(** [get_page_format]: named formats are in points, a [(w, h)] pair is in
    user units and is scaled by [k]. *)
Definition page_format_pt (f : page_format) (kf : Q) : Q * Q :=
  match f with
  | A4 => (59528 # 100, 84189 # 100)
  | Size w h => (w * kf, h * kf)
  end.

(** [FPDF(orientation, unit, format)]: a portrait page keeps the format,
    a landscape one swaps it. *)
Definition new (o : orientation) (u : unit_) (f : page_format) : fpdf :=
  let kf := unit_k u in
  let '(fw, fh) := page_format_pt f kf in
  let '(w, h) := match o with Portrait => (fw, fh) | Landscape => (fh, fw) end in
  Fpdf kf w h 0 None [] [].

Definition add_page (p : fpdf) : fpdf :=
  Fpdf (k p) (w_pt p) (h_pt p) (S (pages p)) (font p) (cells p) (images p).

Definition set_font (family : string) (size : Z) (p : fpdf) : fpdf :=
  Fpdf (k p) (w_pt p) (h_pt p) (pages p) (Some (family, size)) (cells p) (images p).

(** [pdf.cell(0, 10, txt=t, ln=True)]: the text of the cell is recorded;
    automatic page breaks do not change the text and are not modelled. *)
Definition cell (t : list Z) (p : fpdf) : fpdf :=
  Fpdf (k p) (w_pt p) (h_pt p) (pages p) (font p) (cells p ++ [t])%list (images p).

Definition image (i : placed) (p : fpdf) : fpdf :=
  Fpdf (k p) (w_pt p) (h_pt p) (pages p) (font p) (cells p) (images p ++ [i])%list.

End Fpdf.

(* ------------------------------------------------------------------ *)
(** ** The host: files, directories, processes; a state and exception monad *)

Module Host.

Import Py.

(** The content of a file: decoded text, a raster image of a format
    ([PNG], [JPEG], ...) with its size in pixels and its PIL mode, a PDF
    written by [fpdf], or anything else. *)
Inductive content :=
  | CText (cps : list Z)
  | CImage (fmt : string) (w h : Z) (mode : string)
  | CPdf (pdf : Fpdf.fpdf)
  | CBlob.

(** Python exception classes raised in the script; all of them are
    subclasses of [Exception]. *)
Inductive exn_class :=
  | CalledProcessError
  | FileNotFoundError
  | IsADirectoryError
  | PermissionError
  | OSError
  | UnidentifiedImageError
  | ValueError.

(** An exception: its class, its [str()], and the captured [stderr] of a
    [CalledProcessError] (empty for the others). *)
Record exn := PyExn { cls : exn_class; msg : string; stderr : string }.

(** [except Exception] catches every modelled class. *)
Definition is_Exception (c : exn_class) : bool := true.

Definition is_CalledProcessError (c : exn_class) : bool :=
  match c with CalledProcessError => true | _ => false end.

(** Operations of the host that may fail for reasons outside the script
    (permissions, full disk, unreadable data, unconvertible image mode). *)
Inductive op :=
  | OpGetcwd
  | OpChdir (p : string)
  | OpOpen (p : string)
  | OpWrite (p : string)
  | OpRename (a b : string)
  | OpRemove (p : string)
  | OpConvert (mode : string).

Record World := MkWorld {
  cwd : string;
  dirs : list string;
  files : list (string * content);
  stdout : list string }.

(** The environment: whether [which] and [abiword] can be found, what
    [abiword --to=pdf <input>] does when run in a given directory (exit
    status, stderr, files it writes), how non-text files decode as UTF-8
    with [errors='replace'], and which host operations fail. *)
Record Env := MkEnv {
  which_available : bool;
  abiword_on_path : bool;
  abiword_run : string -> string -> Z * string * list (string * content);
  decode_other : content -> list Z;
  fault : op -> option exn }.

Inductive result (A : Type) :=
  | Ok (a : A)
  | Exc (e : exn).
Arguments Ok {A} a.
Arguments Exc {A} e.

Definition M (A : Type) : Type := Env -> World -> result A * World.

Definition ret {A} (a : A) : M A := fun _ w => (Ok a, w).

Definition bind {A B} (m : M A) (f : A -> M B) : M B :=
  fun env w =>
    match m env w with
    | (Ok a, w') => f a env w'
    | (Exc e, w') => (Exc e, w')
    end.

Definition raise {A} (e : exn) : M A := fun _ w => (Exc e, w).

(** [try: m  except ...: h(e)]: [h] decides whether it handles [e]. *)
Definition try_except {A} (m : M A) (h : exn -> M A) : M A :=
  fun env w =>
    match m env w with
    | (Exc e, w') => h e env w'
    | r => r
    end.

Notation "x <- m ;; k" := (bind m (fun x => k))
  (at level 61, m at next level, right associativity).
Notation "m ;; k" := (bind m (fun _ => k))
  (at level 61, right associativity).

Definition get_world : M World := fun _ w => (Ok w, w).
Definition put_world (w : World) : M unit := fun _ _ => (Ok tt, w).
Definition get_env : M Env := fun env w => (Ok env, w).

Definition print (s : string) : M unit :=
  fun _ w => (Ok tt, MkWorld (cwd w) (dirs w) (files w) (stdout w ++ [s])%list).

Definition check_fault (o : op) : M unit :=
  fun env w =>
    match fault env o with
    | Some e => (Exc e, w)
    | None => (Ok tt, w)
    end.

(** Resolution of a path against the working directory (a bare ["."] is
    the working directory itself; other paths are not normalised). *)
Definition abspath (cur p : string) : string :=
  if starts_with_slash p then p
  else if String.eqb p "." then cur
  else join cur p.

Fixpoint lookup (p : string) (fs : list (string * content)) : option content :=
  match fs with
  | [] => None
  | (q, c) :: fs' => if String.eqb p q then Some c else lookup p fs'
  end.

Definition remove_file (p : string) (fs : list (string * content)) :=
  filter (fun qc => negb (String.eqb p (fst qc))) fs.

Definition store (p : string) (c : content) (fs : list (string * content)) :=
  (p, c) :: remove_file p fs.

Definition is_dir_w (w : World) (p : string) : bool :=
  str_in (abspath (cwd w) p) (dirs w).

Definition is_file_w (w : World) (p : string) : bool :=
  match lookup (abspath (cwd w) p) (files w) with Some _ => true | None => false end.

(** [os.path.isdir] and [os.path.exists]: never raise. *)
Definition isdir (p : string) : M bool := fun _ w => (Ok (is_dir_w w p), w).
Definition path_exists (p : string) : M bool :=
  fun _ w => (Ok (is_dir_w w p || is_file_w w p), w).

Definition enoent (p : string) : exn :=
  PyExn FileNotFoundError ("[Errno 2] No such file or directory: '" ++ p ++ "'") "".

(** [os.getcwd()]. *)
Definition getcwd : M string :=
  check_fault OpGetcwd ;; w <- get_world ;; ret (cwd w).

(** [os.chdir(p)]. *)
Definition chdir (p : string) : M unit :=
  check_fault (OpChdir p) ;;
  w <- get_world ;;
  let d := abspath (cwd w) p in
  if str_in d (dirs w)
  then put_world (MkWorld d (dirs w) (files w) (stdout w))
  else raise (enoent p).

(** Opening a file for reading. *)
Definition read_file (p : string) : M content :=
  check_fault (OpOpen p) ;;
  w <- get_world ;;
  if is_dir_w w p then raise (PyExn IsADirectoryError p "")
  else match lookup (abspath (cwd w) p) (files w) with
       | Some c => ret c
       | None => raise (enoent p)
       end.

(** Writing a whole file: its directory must exist. *)
Definition write_file (p : string) (c : content) : M unit :=
  check_fault (OpWrite p) ;;
  w <- get_world ;;
  let a := abspath (cwd w) p in
  if str_in a (dirs w) then raise (PyExn IsADirectoryError p "")
  else if str_in (dirname a) (dirs w)
  then put_world (MkWorld (cwd w) (dirs w) (store a c (files w)) (stdout w))
  else raise (enoent p).

(** [os.rename(a, b)] of a file. *)
Definition rename (a b : string) : M unit :=
  check_fault (OpRename a b) ;;
  w <- get_world ;;
  let a' := abspath (cwd w) a in
  let b' := abspath (cwd w) b in
  match lookup a' (files w) with
  | Some c =>
      if str_in (dirname b') (dirs w)
      then put_world (MkWorld (cwd w) (dirs w) (store b' c (remove_file a' (files w)))
                              (stdout w))
      else raise (enoent b)
  | None => raise (enoent a)
  end.

(** [os.remove(p)]. *)
Definition remove (p : string) : M unit :=
  check_fault (OpRemove p) ;;
  w <- get_world ;;
  let a := abspath (cwd w) p in
  match lookup a (files w) with
  | Some _ => put_world (MkWorld (cwd w) (dirs w) (remove_file a (files w)) (stdout w))
  | None => raise (enoent p)
  end.

End Host.

(* ------------------------------------------------------------------ *)
(** ** The script *)

Module Pdfify.

Import Py Host.

(** [subprocess.run(['which', 'abiword'], check=True, ...)]. *)
Definition run_which : M unit :=
  env <- get_env ;;
  if negb (which_available env) then raise (enoent "which")
  else if abiword_on_path env then ret tt
  else raise (PyExn CalledProcessError
                "Command '['which', 'abiword']' returned non-zero exit status 1." "").

(** [subprocess.run(['abiword', '--to=pdf', input_file], check=True, ...)]:
    the files abiword writes are relative to the working directory. *)
Definition run_abiword (input_file : string) : M unit :=
  env <- get_env ;;
  if negb (abiword_on_path env) then raise (enoent "abiword")
  else
    w <- get_world ;;
    let '(rc, err, created) := abiword_run env (cwd w) input_file in
    put_world (MkWorld (cwd w) (dirs w)
                 (fold_left (fun fs pc => store (abspath (cwd w) (fst pc)) (snd pc) fs)
                    created (files w))
                 (stdout w)) ;;
    if (rc =? 0)%Z then ret tt
    else raise (PyExn CalledProcessError
                  ("Command '['abiword', '--to=pdf', '" ++ input_file
                   ++ "']' returned non-zero exit status.") err).

(** [check_dependencies()]: only [CalledProcessError] is handled. *)
Definition check_dependencies : M unit :=
  try_except
    (run_which ;; print "AbiWord is installed.")
    (fun e =>
       if is_CalledProcessError (cls e) then
         print "WARNING: AbiWord is not installed. DOCX conversion will not work." ;;
         print "Install with: sudo apt-get install abiword"
       else raise e).

(** [convert_txt_to_pdf(input_file, output_file)]. *)
Definition convert_txt_to_pdf (input_file output_file : string) : M bool :=
  try_except
    (let pdf := Fpdf.set_font "Arial" 12
                  (Fpdf.add_page (Fpdf.new Fpdf.Portrait Fpdf.Mm Fpdf.A4)) in
     c <- read_file input_file ;;
     env <- get_env ;;
     let text := match c with CText cps => cps | other => decode_other env other end in
     let pdf' := fold_left (fun p line => Fpdf.cell (Text.strip (Text.clean_line line)) p)
                   (Text.split_lines text) pdf in
     write_file output_file (CPdf pdf') ;;
     ret true)
    (fun e =>
       if is_Exception (cls e) then
         print ("Error converting text file: " ++ msg e) ;; ret false
       else raise e).

(** [convert_image_to_pdf(input_file, output_file)]. *)
Definition convert_image_to_pdf (input_file output_file : string) : M bool :=
  try_except
    (c <- read_file input_file ;;
     match c with
     | CImage _ width height mode0 =>
         mode <- (if negb (String.eqb mode0 "RGB")
                  then check_fault (OpConvert mode0) ;; ret "RGB"
                  else ret mode0) ;;
         let temp_jpg := input_file ++ ".temp.jpg" in
         write_file temp_jpg (CImage "JPEG" width height mode) ;;
         let pdf := Fpdf.add_page
                      (Fpdf.new Fpdf.Portrait Fpdf.Pt
                         (Fpdf.Size (inject_Z width) (inject_Z height))) in
         t <- read_file temp_jpg ;;
         match t with
         | CImage _ _ _ m =>
             let pdf' := Fpdf.image
                           (Fpdf.Placed temp_jpg m 0 0 (inject_Z width) (inject_Z height))
                           pdf in
             write_file output_file (CPdf pdf') ;;
             remove temp_jpg ;;
             ret true
         | _ => raise (PyExn ValueError "Unsupported image type" "")
         end
     | _ => raise (PyExn UnidentifiedImageError
                     ("cannot identify image file '" ++ input_file ++ "'") "")
     end)
    (fun e =>
       if is_Exception (cls e) then
         print ("Error converting image: " ++ msg e) ;; ret false
       else raise e).

(** [convert_docx_to_pdf(input_file, output_file)]. *)
Definition convert_docx_to_pdf (input_file output_file : string) : M bool :=
  try_except
    (let od := dirname output_file in
     let output_dir := if String.eqb od "" then "." else od in
     current_dir <- getcwd ;;
     chdir output_dir ;;
     run_abiword input_file ;;
     chdir current_dir ;;
     let base_name := basename input_file in
     let name_without_ext := fst (splitext base_name) in
     let expected_pdf := join output_dir (name_without_ext ++ ".pdf") in
     ex <- path_exists expected_pdf ;;
     (if ex && negb (String.eqb expected_pdf output_file)
      then rename expected_pdf output_file else ret tt) ;;
     ret true)
    (fun e =>
       if is_CalledProcessError (cls e) then
         print ("Error running AbiWord: " ++ msg e) ;;
         print ("STDERR: " ++ stderr e) ;;
         ret false
       else if is_Exception (cls e) then
         print ("Error converting DOCX: " ++ msg e) ;; ret false
       else raise e).

Definition text_exts : list string := [".txt"; ".md"; ".csv"].
Definition image_exts : list string := [".jpg"; ".jpeg"; ".png"; ".bmp"; ".gif"].
Definition doc_exts : list string := [".docx"; ".doc"].

(** The output path [os.path.join(output_dir, name_without_ext + '.pdf')]. *)
Definition output_path (input_file output_dir : string) : string :=
  join output_dir (fst (splitext (basename input_file)) ++ ".pdf").

(** [convert_to_pdf(input_file, output_dir)]. *)
Definition convert_to_pdf (input_file output_dir : string) : M (option string) :=
  let file_name := basename input_file in
  let name_without_ext := fst (splitext file_name) in
  let extension := lower (snd (splitext file_name)) in
  let output_file := join output_dir (name_without_ext ++ ".pdf") in
  print ("Converting " ++ file_name ++ " to " ++ output_file ++ "...") ;;
  let finish (success : bool) : M (option string) :=
    ret (if success then Some output_file else None) in
  if str_in extension text_exts then
    success <- convert_txt_to_pdf input_file output_file ;; finish success
  else if str_in extension image_exts then
    success <- convert_image_to_pdf input_file output_file ;; finish success
  else if str_in extension doc_exts then
    success <- convert_docx_to_pdf input_file output_file ;; finish success
  else
    print ("Unsupported file format: " ++ extension) ;; ret None.

Definition supported_extensions : list string := (text_exts ++ image_exts ++ doc_exts)%list.

(** Python truthiness of a string. *)
Definition truthy (s : string) : bool := negb (String.eqb s "").

(** One iteration of the loop of [main] over [os.listdir(current_dir)];
    [script] is [os.path.basename(__file__)]; the accumulator holds
    [converted_files] and [failed_files].  (The printed check marks are
    left out of the messages.) *)
Definition process_file (script current_dir output_dir : string)
    (acc : list string * list string) (file_name : string)
    : M (list string * list string) :=
  let '(converted_files, failed_files) := acc in
  let file_path := join current_dir file_name in
  d <- isdir file_path ;;
  if d || String.eqb file_name script then ret acc
  else
    let extension := lower (snd (splitext file_name)) in
    if str_in extension supported_extensions then
      output_file <- convert_to_pdf file_path output_dir ;;
      ok <- (match output_file with
             | Some p => if truthy p then path_exists p else ret false
             | None => ret false
             end) ;;
      if ok then
        print ("Successfully converted: " ++ file_name) ;;
        ret ((converted_files ++ [file_name])%list, failed_files)
      else
        print ("Failed to convert: " ++ file_name) ;;
        ret (converted_files, (failed_files ++ [file_name])%list)
    else ret acc.

Fixpoint main_loop (script current_dir output_dir : string)
    (names : list string) (acc : list string * list string)
    : M (list string * list string) :=
  match names with
  | [] => ret acc
  | n :: ns =>
      acc' <- process_file script current_dir output_dir acc n ;;
      main_loop script current_dir output_dir ns acc'
  end.

(** The counts printed by the summary of [main]. *)
Record report := Report {
  total_processed : nat;
  succeeded_count : nat;
  failed_count : nat }.

Definition summary (converted_files failed_files : list string) : report :=
  Report (length converted_files + length failed_files)
         (length converted_files) (length failed_files).

(** [os.listdir(d)]: the names of the entries directly inside [d]. *)
Definition listdir (d : string) : M (list string) :=
  w <- get_world ;;
  let a := abspath (cwd w) d in
  let inside p := String.eqb (dirname p) a && negb (String.eqb p a) in
  ret (map basename (filter inside (dirs w ++ map fst (files w))%list)).

(** [os.makedirs(d)] of a directory whose parent exists. *)
Definition makedirs (d : string) : M unit :=
  check_fault (OpWrite d) ;;
  w <- get_world ;;
  put_world (MkWorld (cwd w) (abspath (cwd w) d :: dirs w) (files w) (stdout w)).

(** [main()], returning the lists it accumulates and the summary it prints. *)
Definition main (script : string) : M (list string * list string * report) :=
  check_dependencies ;;
  current_dir <- getcwd ;;
  let output_dir := join current_dir "pdf_output" in
  e <- path_exists output_dir ;;
  (if negb e then makedirs output_dir ;;
                  print ("Created output directory: " ++ output_dir)
   else ret tt) ;;
  names <- listdir current_dir ;;
  acc <- main_loop script current_dir output_dir names ([], []) ;;
  let '(converted_files, failed_files) := acc in
  print "=== Conversion Summary ===" ;;
  ret (converted_files, failed_files, summary converted_files failed_files).

End Pdfify.

(* ------------------------------------------------------------------ *)
(** ** Frame and post-condition reasoning for the monad *)

Module Frame.

Import Py Host Pdfify.

(** [m] does not change the observation [f] of the world. *)
Definition keeps {T A} (f : World -> T) (m : M A) : Prop :=
  forall env w, f (snd (m env w)) = f w.

(** Every normal result of [m] satisfies [P]. *)
Definition post {A} (P : A -> Prop) (m : M A) : Prop :=
  forall env w a w', m env w = (Ok a, w') -> P a.

Section Keeps.
Context {T : Type} (f : World -> T).

Lemma keeps_ret {A} (a : A) : keeps f (ret a).
Proof. intros env w; reflexivity. Qed.

Lemma keeps_raise {A} (e : exn) : keeps f (@raise A e).
Proof. intros env w; reflexivity. Qed.

Lemma keeps_get_world : keeps f get_world.
Proof. intros env w; reflexivity. Qed.

Lemma keeps_get_env : keeps f get_env.
Proof. intros env w; reflexivity. Qed.

Lemma keeps_check_fault o : keeps f (check_fault o).
Proof. intros env w; unfold check_fault; destruct (fault env o); reflexivity. Qed.

Lemma keeps_bind {A B} (m : M A) (k : A -> M B) :
  keeps f m -> (forall a, keeps f (k a)) -> keeps f (bind m k).
Proof.
  intros Hm Hk env w; unfold bind.
  specialize (Hm env w).
  destruct (m env w) as [[a|e] w'] eqn:E; simpl in *.
  - rewrite Hk; exact Hm.
  - exact Hm.
Qed.

Lemma keeps_try {A} (m : M A) (h : exn -> M A) :
  keeps f m -> (forall e, keeps f (h e)) -> keeps f (try_except m h).
Proof.
  intros Hm Hh env w; unfold try_except.
  specialize (Hm env w).
  destruct (m env w) as [[a|e] w'] eqn:E; simpl in *.
  - exact Hm.
  - rewrite Hh; exact Hm.
Qed.

End Keeps.

Section Post.
Context {A : Type}.

Lemma post_ret (P : A -> Prop) a : P a -> post P (ret a).
Proof. intros Ha env w a' w' E; inversion E; subst; exact Ha. Qed.

Lemma post_raise (P : A -> Prop) e : post P (raise e).
Proof. intros env w a w' E; discriminate E. Qed.

Lemma post_bind {B} (P : A -> Prop) (m : M B) (k : B -> M A) :
  (forall b, post P (k b)) -> post P (bind m k).
Proof.
  intros Hk env w a w' E; unfold bind in E.
  destruct (m env w) as [[b|e] w1]; [exact (Hk b env w1 a w' E) | discriminate E].
Qed.

End Post.

Create HintDb keeps.
#[export] Hint Resolve keeps_ret keeps_raise keeps_get_world keeps_get_env
  keeps_check_fault : keeps.

(** Decompose a computation into its steps. *)
Ltac keeps_step :=
  match goal with
  | |- keeps _ (bind _ _) => apply keeps_bind; [|intro]
  | |- keeps _ (try_except _ _) => apply keeps_try; [|intro]
  | |- keeps _ (match ?x with _ => _ end) => destruct x
  | |- keeps _ (if ?b then _ else _) => destruct b
  | |- keeps _ (let _ := _ in _) => cbv zeta
  | |- _ => solve [auto with keeps]
  end.

Ltac post_step :=
  match goal with
  | |- post _ (bind _ _) => apply post_bind; intro
  | |- post _ (match ?x with _ => _ end) => destruct x
  | |- post _ (if ?b then _ else _) => destruct b
  | |- post _ (let _ := _ in _) => cbv zeta
  | |- post _ (raise _) => apply post_raise
  | |- post _ (ret _) => apply post_ret
  end.

(** The host operations write nothing on standard output and create no
    directory. *)
Lemma print_keeps_dirs s : keeps dirs (print s).
Proof. intros env w; reflexivity. Qed.

Ltac host_op :=
  intros env w;
  cbv [bind check_fault get_world put_world get_env raise ret] in *;
  repeat (simpl; match goal with
                 | |- context [match ?x with _ => _ end] =>
                     lazymatch x with
                     | context [match _ with _ => _ end] => fail
                     | _ => destruct x
                     end
                 end); reflexivity.

Lemma getcwd_keeps {T} (f : World -> T) : keeps f getcwd.
Proof. unfold getcwd; host_op. Qed.

Lemma read_file_keeps {T} (f : World -> T) p : keeps f (read_file p).
Proof. unfold read_file; host_op. Qed.

Lemma isdir_keeps {T} (f : World -> T) p : keeps f (isdir p).
Proof. intros env w; reflexivity. Qed.

Lemma path_exists_keeps {T} (f : World -> T) p : keeps f (path_exists p).
Proof. intros env w; reflexivity. Qed.

Lemma run_which_keeps {T} (f : World -> T) : keeps f run_which.
Proof. unfold run_which; host_op. Qed.

Lemma chdir_keeps_stdout p : keeps stdout (chdir p).
Proof. unfold chdir; host_op. Qed.
Lemma chdir_keeps_dirs p : keeps dirs (chdir p).
Proof. unfold chdir; host_op. Qed.
Lemma write_file_keeps_stdout p c : keeps stdout (write_file p c).
Proof. unfold write_file; host_op. Qed.
Lemma write_file_keeps_dirs p c : keeps dirs (write_file p c).
Proof. unfold write_file; host_op. Qed.
Lemma rename_keeps_stdout a b : keeps stdout (rename a b).
Proof. unfold rename; host_op. Qed.
Lemma rename_keeps_dirs a b : keeps dirs (rename a b).
Proof. unfold rename; host_op. Qed.
Lemma remove_keeps_stdout p : keeps stdout (remove p).
Proof. unfold remove; host_op. Qed.
Lemma remove_keeps_dirs p : keeps dirs (remove p).
Proof. unfold remove; host_op. Qed.
Lemma run_abiword_keeps_stdout i : keeps stdout (run_abiword i).
Proof. unfold run_abiword; host_op. Qed.
Lemma run_abiword_keeps_dirs i : keeps dirs (run_abiword i).
Proof. unfold run_abiword; host_op. Qed.

#[export] Hint Resolve getcwd_keeps read_file_keeps isdir_keeps path_exists_keeps
  run_which_keeps print_keeps_dirs
  chdir_keeps_stdout chdir_keeps_dirs write_file_keeps_stdout write_file_keeps_dirs
  rename_keeps_stdout rename_keeps_dirs remove_keeps_stdout remove_keeps_dirs
  run_abiword_keeps_stdout run_abiword_keeps_dirs : keeps.

End Frame.

(* ------------------------------------------------------------------ *)
(** ** The converters never raise *)

Module Converters.

Import Py Host Pdfify Frame.

(** The lines each converter's handlers print for an exception. *)
Definition txt_log (e : exn) : list string := ["Error converting text file: " ++ msg e].
Definition image_log (e : exn) : list string := ["Error converting image: " ++ msg e].
Definition docx_log (e : exn) : list string :=
  if is_CalledProcessError (cls e)
  then ["Error running AbiWord: " ++ msg e; "STDERR: " ++ stderr e]
  else ["Error converting DOCX: " ++ msg e].

Lemma try_handled (m : M bool) (h : exn -> M bool) (L : exn -> list string) :
  keeps stdout m -> keeps dirs m -> post (eq true) m ->
  (forall e env w, h e env w =
     (Ok false, MkWorld (cwd w) (dirs w) (files w) (stdout w ++ L e)%list)) ->
  forall env w, exists b w',
    try_except m h env w = (Ok b, w') /\ dirs w' = dirs w /\
    (b = false -> exists e, stdout w' = (stdout w ++ L e)%list).
Proof.
  intros Hs Hd Hp Hh env w; unfold try_except.
  specialize (Hs env w); specialize (Hd env w).
  destruct (m env w) as [[b|e] w'] eqn:E; simpl in Hs, Hd.
  - exists b, w'; split; [reflexivity|split; [exact Hd|]].
    intros ->; pose proof (Hp env w false w' E); discriminate.
  - rewrite Hh; eexists _, _; split; [reflexivity|]; simpl.
    split; [exact Hd|]; intros _; exists e; rewrite Hs; reflexivity.
Qed.

Ltac body_facts :=
  match goal with
  | |- context [try_except ?m ?h] =>
      apply (try_handled m h);
      [ repeat keeps_step | repeat keeps_step
      | repeat post_step; reflexivity
      | intros ?e ?env ?w; simpl; reflexivity ]
  end.

Lemma convert_txt_to_pdf_total i o env w : exists b w',
  convert_txt_to_pdf i o env w = (Ok b, w') /\ dirs w' = dirs w /\
  (b = false -> exists e, stdout w' = (stdout w ++ txt_log e)%list).
Proof. unfold convert_txt_to_pdf; body_facts. Qed.

Lemma convert_image_to_pdf_total i o env w : exists b w',
  convert_image_to_pdf i o env w = (Ok b, w') /\ dirs w' = dirs w /\
  (b = false -> exists e, stdout w' = (stdout w ++ image_log e)%list).
Proof. unfold convert_image_to_pdf; body_facts. Qed.

Lemma convert_docx_to_pdf_total i o env w : exists b w',
  convert_docx_to_pdf i o env w = (Ok b, w') /\ dirs w' = dirs w /\
  (b = false -> exists e, stdout w' = (stdout w ++ docx_log e)%list).
Proof.
  unfold convert_docx_to_pdf.
  match goal with
  | |- context [try_except ?m ?h] =>
      apply (try_handled m h);
      [ repeat keeps_step | repeat keeps_step | repeat post_step; reflexivity | ]
  end.
  intros e env' w'; unfold docx_log; destruct (is_CalledProcessError (cls e));
    cbn [bind print ret stdout cwd dirs files]; [rewrite <- app_assoc|];
    reflexivity.
Qed.

End Converters.

(* ------------------------------------------------------------------ *)
(** ** Facts about the path functions *)

Module Paths.

Import Py Pdfify.

Lemma rfind_from_ge c s : forall i acc,
  (acc < i)%Z -> (acc <= rfind_from c s i acc)%Z.
Proof.
  induction s as [|a s IH]; intros i acc H; simpl; [lia|].
  specialize (IH (i + 1)%Z (if (a =? c)%char then i else acc)).
  destruct (a =? c)%char; lia.
Qed.

(** No occurrence of [c] lies after [rfind c s]. *)
Lemma rfind_from_last c s : forall i acc j,
  (acc < i)%Z -> (rfind_from c s i acc < Z.of_nat j + i)%Z ->
  String.get j s <> Some c.
Proof.
  induction s as [|a s IH]; intros i acc j H Hr; simpl; [discriminate|].
  simpl in Hr. destruct j as [|j].
  - intros [= ->].
    rewrite Ascii.eqb_refl in Hr.
    pose proof (rfind_from_ge c s (i + 1)%Z i ltac:(lia)); lia.
  - apply (IH (i + 1)%Z (if (a =? c)%char then i else acc)).
    + destruct (a =? c)%char; lia.
    + lia.
Qed.

Lemma rfind_ge c s : (-1 <= rfind c s)%Z.
Proof. apply rfind_from_ge; lia. Qed.

Lemma substring_zero n s : substring n 0 s = "".
Proof. revert n; induction s; destruct n; simpl; auto. Qed.

(** A basename never starts with a slash. *)
Lemma basename_first p a s : basename p = String a s -> a <> "/"%char.
Proof.
  unfold basename, slice_from; intros E.
  pose proof (rfind_ge "/"%char p) as Hge.
  set (n := Z.to_nat (rfind "/" p + 1)) in *.
  destruct (String.length p - n)%nat as [|len] eqn:Hlen.
  - rewrite substring_zero in E; discriminate.
  - assert (G : String.get 0 (substring n (S len) p) = String.get (0 + n) p)
      by (apply substring_correct1; lia).
    rewrite E in G; simpl in G.
    intros ->.
    apply (rfind_from_last "/"%char p 0 (-1) n); [lia| |symmetry; exact G].
    unfold n, rfind in *; rewrite Z2Nat.id; lia.
Qed.

Lemma prefix_first m b a s : substring 0 m b = String a s ->
  exists s', b = String a s'.
Proof. destruct m, b; simpl; intros E; inversion E; eauto. Qed.

Lemma splitext_fst_cases b :
  fst (splitext b) = b \/ exists m, fst (splitext b) = substring 0 m b.
Proof.
  unfold splitext, slice_to.
  destruct (_ <? _)%Z; [destruct splitext_scan|]; simpl; eauto.
Qed.

(** The base name without extension never starts with a slash. *)
Lemma stem_first p a s :
  fst (splitext (basename p)) = String a s -> a <> "/"%char.
Proof.
  intros E.
  destruct (splitext_fst_cases (basename p)) as [H|[m H]]; rewrite H in E.
  - exact (basename_first p a s E).
  - destruct (prefix_first m _ a s E) as [s' E'].
    exact (basename_first p a s' E').
Qed.

Lemma stem_pdf_relative input :
  starts_with_slash (fst (splitext (basename input)) ++ ".pdf") = false.
Proof.
  destruct (fst (splitext (basename input))) as [|a s] eqn:E; [reflexivity|].
  simpl; apply Ascii.eqb_neq; exact (stem_first input a s E).
Qed.

(** [output_path input dir] is [dir/<basename-without-ext>.pdf]. *)
Lemma output_path_slash input dir :
  dir <> "" -> ends_with_slash dir = false ->
  output_path input dir = dir ++ "/" ++ fst (splitext (basename input)) ++ ".pdf".
Proof.
  intros Hne Hend; unfold output_path, join.
  rewrite stem_pdf_relative, Hend.
  destruct (String.eqb_spec dir ""); [contradiction|reflexivity].
Qed.

Lemma append_nonempty_r a b : b <> "" -> a ++ b <> "".
Proof. destruct a; simpl; [auto|discriminate]. Qed.

Lemma output_path_nonempty input dir : output_path input dir <> "".
Proof.
  unfold output_path, join.
  assert (Hb : fst (splitext (basename input)) ++ ".pdf" <> "")
    by (apply append_nonempty_r; discriminate).
  destruct starts_with_slash; [exact Hb|].
  destruct (_ || _); [apply append_nonempty_r; exact Hb|].
  apply append_nonempty_r; discriminate.
Qed.

Lemma join_absolute a b : starts_with_slash a = true -> starts_with_slash (join a b) = true.
Proof.
  unfold join; intros Ha.
  destruct (starts_with_slash b) eqn:Hb; [exact Hb|].
  destruct a as [|c a]; [discriminate|].
  destruct (_ || _); exact Ha.
Qed.

End Paths.

(* ------------------------------------------------------------------ *)
(** ** The dispatcher and the loop of [main] *)

Module Driver.

Import Py Host Pdfify Frame Converters.

(** The world after a line is printed. *)
Definition log_world (s : string) (w : World) : World :=
  MkWorld (cwd w) (dirs w) (files w) (stdout w ++ [s])%list.

Definition converting_msg (input_file output_dir : string) : string :=
  "Converting " ++ basename input_file ++ " to " ++ output_path input_file output_dir ++ "...".

(** Running a converter and turning its flag into [convert_to_pdf]'s result. *)
Definition run_conv (conv : string -> string -> M bool) (i o : string)
    : M (option string) :=
  fun env w =>
    match conv i o env w with
    | (Ok b, w') => (Ok (if b then Some o else None), w')
    | (Exc e, w') => (Exc e, w')
    end.

Lemma convert_to_pdf_eq input dir env w :
  let ext := lower (snd (splitext (basename input))) in
  let out := output_path input dir in
  let w1 := log_world (converting_msg input dir) w in
  convert_to_pdf input dir env w =
  if str_in ext text_exts then run_conv convert_txt_to_pdf input out env w1
  else if str_in ext image_exts then run_conv convert_image_to_pdf input out env w1
  else if str_in ext doc_exts then run_conv convert_docx_to_pdf input out env w1
  else (Ok None, log_world ("Unsupported file format: " ++ ext) w1).
Proof.
  cbv zeta; unfold convert_to_pdf, run_conv; cbv zeta; unfold bind at 1; cbn [print].
  destruct (str_in _ text_exts); [unfold bind; reflexivity|].
  destruct (str_in _ image_exts); [unfold bind; reflexivity|].
  destruct (str_in _ doc_exts); reflexivity.
Qed.

(** [convert_to_pdf] never raises, creates no directory, and its only
    possible path is [output_path]. *)
Lemma convert_to_pdf_total input dir env w : exists r w',
  convert_to_pdf input dir env w = (Ok r, w') /\ dirs w' = dirs w /\
  (forall p, r = Some p -> p = output_path input dir).
Proof.
  rewrite convert_to_pdf_eq; cbv zeta; unfold run_conv.
  set (w1 := log_world _ w).
  assert (D : dirs w1 = dirs w) by reflexivity.
  repeat match goal with
  | |- context [if str_in ?x ?l then _ else _] => destruct (str_in x l)
  end;
  [ destruct (convert_txt_to_pdf_total input (output_path input dir) env w1)
      as (b & w' & E & Hd & _)
  | destruct (convert_image_to_pdf_total input (output_path input dir) env w1)
      as (b & w' & E & Hd & _)
  | destruct (convert_docx_to_pdf_total input (output_path input dir) env w1)
      as (b & w' & E & Hd & _)
  | ];
  try (rewrite E; exists (if b then Some (output_path input dir) else None), w';
       split; [reflexivity|split; [congruence|]];
       intros p Hp; destruct b; congruence).
  eexists _, _; split; [reflexivity|split; [reflexivity|discriminate]].
Qed.

(** The filter of the loop of [main]: not a directory, not the script
    itself, and a supported extension. *)
Definition eligible (script current_dir : string) (ds : list string) (n : string) : bool :=
  negb (str_in (join current_dir n) ds) && negb (String.eqb n script)
  && str_in (lower (snd (splitext n))) supported_extensions.

Lemma abspath_absolute c p : starts_with_slash p = true -> abspath c p = p.
Proof. unfold abspath; intros ->; reflexivity. Qed.

(** Whether the accumulated file of [process_file] counts as converted. *)
Definition conversion_ok (r : option string) (w : World) : bool :=
  match r with
  | Some p => is_dir_w w p || is_file_w w p
  | None => false
  end.

(** One iteration of the loop, for a file it converts. *)
Lemma process_file_converts script cur out c f n env w r w1 :
  is_dir_w w (join cur n) = false -> String.eqb n script = false ->
  str_in (lower (snd (splitext n))) supported_extensions = true ->
  convert_to_pdf (join cur n) out env w = (Ok r, w1) ->
  process_file script cur out (c, f) n env w =
  if conversion_ok r w1
  then (Ok ((c ++ [n])%list, f), log_world ("Successfully converted: " ++ n) w1)
  else (Ok (c, (f ++ [n])%list), log_world ("Failed to convert: " ++ n) w1).
Proof.
  intros Hd Hs Hx E.
  unfold process_file; cbv zeta; unfold bind at 1; cbn [isdir].
  rewrite Hd, Hs; cbn [orb]; rewrite Hx.
  unfold bind at 1; rewrite E.
  destruct r as [p|]; unfold conversion_ok.
  - pose proof (convert_to_pdf_total (join cur n) out env w) as (r' & w' & E' & _ & Hp).
    rewrite E in E'; injection E' as <- <-.
    rewrite (Hp p eq_refl); unfold truthy.
    destruct (String.eqb_spec (output_path (join cur n) out) "") as [H0|_];
      [destruct (Paths.output_path_nonempty _ _ H0)|].
    simpl; unfold bind, path_exists; destruct (_ || _); reflexivity.
  - simpl; reflexivity.
Qed.

(** One iteration of the loop, for a file it skips. *)
Lemma process_file_skips script cur out acc n env w :
  (is_dir_w w (join cur n) || String.eqb n script
   || negb (str_in (lower (snd (splitext n))) supported_extensions)) = true ->
  process_file script cur out acc n env w = (Ok acc, w).
Proof.
  destruct acc as [c f]; intros H.
  unfold process_file; cbv zeta; unfold bind at 1; cbn [isdir].
  destruct (is_dir_w w (join cur n)), (String.eqb n script); cbn [orb] in *;
    try reflexivity.
  destruct (str_in (lower (snd (splitext n))) supported_extensions);
    [discriminate|reflexivity].
Qed.

End Driver.

Module Loop.

Import Py Host Pdfify Frame Converters Driver.

Section Loop.
Variables (script cur out : string) (env : Env).
Hypothesis cur_absolute : starts_with_slash cur = true.

Lemma is_dir_entry w n : is_dir_w w (join cur n) = str_in (join cur n) (dirs w).
Proof.
  unfold is_dir_w; rewrite abspath_absolute; [reflexivity|].
  apply Paths.join_absolute; exact cur_absolute.
Qed.

(** The loop never raises, creates no directory, and files each eligible
    entry exactly once, in [converted_files] or in [failed_files]. *)
Lemma main_loop_perm names : forall c f w, exists c' f' w',
  main_loop script cur out names (c, f) env w = (Ok (c', f'), w') /\
  dirs w' = dirs w /\
  Permutation (c' ++ f') (c ++ f ++ filter (eligible script cur (dirs w)) names).
Proof.
  induction names as [|n ns IH]; intros c f w.
  - exists c, f, w; simpl; rewrite app_nil_r; auto.
  - cbn [main_loop filter]; unfold bind at 1.
    destruct (eligible script cur (dirs w) n) eqn:He.
    2:{ rewrite process_file_skips; [exact (IH c f w)|].
        unfold eligible in He; rewrite is_dir_entry.
        destruct (str_in (join cur n) (dirs w)), (String.eqb n script),
          (str_in (lower (snd (splitext n))) supported_extensions);
          cbn in He |- *; congruence. }
    unfold eligible in He.
    apply andb_true_iff in He as [He Hx]; apply andb_true_iff in He as [Hd Hs].
    apply negb_true_iff in Hd, Hs.
    destruct (convert_to_pdf_total (join cur n) out env w) as (r & w1 & E & D1 & _).
    rewrite (process_file_converts script cur out c f n env w r w1)
      by (rewrite ?is_dir_entry; assumption).
    destruct (conversion_ok r w1).
    + destruct (IH (c ++ [n])%list f (log_world ("Successfully converted: " ++ n) w1))
        as (c' & f' & w' & E' & D' & P').
      exists c', f', w'; split; [exact E'|].
      cbn [dirs log_world] in D', P'; rewrite D1 in D', P'.
      split; [exact D'|].
      rewrite P', <- app_assoc; simpl.
      apply Permutation_app_head, Permutation_middle.
    + destruct (IH c (f ++ [n])%list (log_world ("Failed to convert: " ++ n) w1))
        as (c' & f' & w' & E' & D' & P').
      exists c', f', w'; split; [exact E'|].
      cbn [dirs log_world] in D', P'; rewrite D1 in D', P'.
      split; [exact D'|].
      rewrite P', <- app_assoc; reflexivity.
Qed.

End Loop.

End Loop.

(* ------------------------------------------------------------------ *)
(** ** Host operations that succeed *)

Module Steps.

Import Py Host Pdfify.

Definition no_faults (env : Env) : Prop := forall o, fault env o = None.

Lemma bind_ok {A B} (m : M A) (k : A -> M B) env w a w1 :
  m env w = (Ok a, w1) -> bind m k env w = k a env w1.
Proof. intros E; unfold bind; rewrite E; reflexivity. Qed.

Lemma try_ok {A} (m : M A) h env w a w1 :
  m env w = (Ok a, w1) -> try_except m h env w = (Ok a, w1).
Proof. intros E; unfold try_except; rewrite E; reflexivity. Qed.

Lemma lookup_store_eq p c fs : lookup p (store p c fs) = Some c.
Proof. unfold store; simpl; rewrite String.eqb_refl; reflexivity. Qed.

Lemma lookup_remove_neq p q fs : p <> q -> lookup p (remove_file q fs) = lookup p fs.
Proof.
  intros H; induction fs as [|[r c] fs IH]; simpl; [reflexivity|].
  destruct (String.eqb_spec q r) as [->|Hqr]; simpl.
  - destruct (String.eqb_spec p r); [contradiction|exact IH].
  - destruct (String.eqb p r); [reflexivity|exact IH].
Qed.

Lemma lookup_store_neq p q c fs : p <> q -> lookup p (store q c fs) = lookup p fs.
Proof.
  intros H; unfold store; simpl.
  destruct (String.eqb_spec p q); [contradiction|].
  apply lookup_remove_neq; exact H.
Qed.

Lemma check_fault_ok env w o : no_faults env -> check_fault o env w = (Ok tt, w).
Proof. intros Hf; unfold check_fault; rewrite Hf; reflexivity. Qed.

Lemma read_file_ok env w p c :
  no_faults env -> is_dir_w w p = false ->
  lookup (abspath (cwd w) p) (files w) = Some c ->
  read_file p env w = (Ok c, w).
Proof.
  intros Hf Hd Hl; unfold read_file.
  rewrite (bind_ok _ _ _ _ _ _ (check_fault_ok env w _ Hf)).
  unfold bind, get_world; rewrite Hd, Hl; reflexivity.
Qed.

Lemma write_file_ok env w p c :
  no_faults env ->
  str_in (abspath (cwd w) p) (dirs w) = false ->
  str_in (dirname (abspath (cwd w) p)) (dirs w) = true ->
  write_file p c env w =
  (Ok tt, MkWorld (cwd w) (dirs w) (store (abspath (cwd w) p) c (files w)) (stdout w)).
Proof.
  intros Hf Hd Hp; unfold write_file.
  rewrite (bind_ok _ _ _ _ _ _ (check_fault_ok env w _ Hf)).
  unfold bind, get_world; rewrite Hd, Hp; reflexivity.
Qed.

Lemma remove_ok env w p c :
  no_faults env -> lookup (abspath (cwd w) p) (files w) = Some c ->
  remove p env w =
  (Ok tt, MkWorld (cwd w) (dirs w) (remove_file (abspath (cwd w) p) (files w)) (stdout w)).
Proof.
  intros Hf Hl; unfold remove.
  rewrite (bind_ok _ _ _ _ _ _ (check_fault_ok env w _ Hf)).
  unfold bind, get_world; rewrite Hl; reflexivity.
Qed.

Lemma getcwd_ok env w : no_faults env -> getcwd env w = (Ok (cwd w), w).
Proof.
  intros Hf; unfold getcwd.
  rewrite (bind_ok _ _ _ _ _ _ (check_fault_ok env w _ Hf)); reflexivity.
Qed.

Lemma chdir_ok env w p :
  no_faults env -> str_in (abspath (cwd w) p) (dirs w) = true ->
  chdir p env w = (Ok tt, MkWorld (abspath (cwd w) p) (dirs w) (files w) (stdout w)).
Proof.
  intros Hf Hd; unfold chdir.
  rewrite (bind_ok _ _ _ _ _ _ (check_fault_ok env w _ Hf)).
  unfold bind, get_world; rewrite Hd; reflexivity.
Qed.

(** The folds of [pdf.cell] over the lines append their texts. *)
Lemma fold_cells (g : list Z -> list Z) (ls : list (list Z)) p :
  Fpdf.cells (fold_left (fun q line => Fpdf.cell (g line) q) ls p)
  = (Fpdf.cells p ++ map g ls)%list.
Proof.
  revert p; induction ls as [|l ls IH]; intros p; simpl.
  - rewrite app_nil_r; reflexivity.
  - rewrite IH; simpl; rewrite <- app_assoc; reflexivity.
Qed.

End Steps.

(* ------------------------------------------------------------------ *)
(** ** Facts about the line loop of the text converter *)

Module TextFacts.

Import Text.

Definition space (c : Z) : Prop := is_space c = true.

(** The lines of a text concatenate back to the text. *)
Lemma split_lines_acc_concat s : forall cur,
  concat (split_lines_acc cur s) = (rev cur ++ s)%list.
Proof.
  induction s as [|c s IH]; intros cur; simpl.
  - destruct cur; simpl; [reflexivity|rewrite !app_nil_r; reflexivity].
  - destruct (c =? LF)%Z; simpl.
    + rewrite IH; simpl; rewrite <- app_assoc; reflexivity.
    + rewrite IH; simpl; rewrite <- app_assoc; reflexivity.
Qed.

Lemma split_lines_concat s : concat (split_lines s) = s.
Proof. unfold split_lines; rewrite split_lines_acc_concat; reflexivity. Qed.

(** [lstrip] drops exactly the leading white space. *)
Lemma lstrip_spec s : exists pre,
  s = (pre ++ lstrip s)%list /\ Forall space pre /\
  match lstrip s with [] => True | c :: _ => is_space c = false end.
Proof.
  induction s as [|c s IH]; simpl.
  - exists []; auto.
  - destruct (is_space c) eqn:Hc.
    + destruct IH as (pre & E & F & H).
      exists (c :: pre); simpl; rewrite <- E; auto.
    + exists []; simpl; auto.
Qed.

(** [strip] drops exactly the leading and trailing white space. *)
Lemma strip_spec s : exists pre suf,
  s = (pre ++ strip s ++ suf)%list /\ Forall space pre /\ Forall space suf /\
  (strip s = [] \/
   ((exists c, hd_error (strip s) = Some c /\ is_space c = false) /\
    (exists c, hd_error (rev (strip s)) = Some c /\ is_space c = false))).
Proof.
  unfold strip.
  destruct (lstrip_spec s) as (pre & Es & Fpre & Ht).
  set (t := lstrip s) in *.
  destruct (lstrip_spec (rev t)) as (pre2 & Er & Fpre2 & Hu).
  set (u := lstrip (rev t)) in *.
  assert (Et : t = (rev u ++ rev pre2)%list)
    by (rewrite <- rev_app_distr, <- Er, rev_involutive; reflexivity).
  exists pre, (rev pre2); split; [|split; [exact Fpre|split]].
  - rewrite Es at 1; rewrite Et; reflexivity.
  - apply Forall_rev; exact Fpre2.
  - destruct u as [|c u'] eqn:Eu; [left; reflexivity|right; split].
    + destruct (rev (c :: u')) as [|d r] eqn:Erev.
      * apply (f_equal (@length Z)) in Erev; rewrite length_rev in Erev; discriminate.
      * exists d; split; [reflexivity|].
        rewrite Et in Ht; simpl in Ht; exact Ht.
    + rewrite rev_involutive; exists c; split; [reflexivity|exact Hu].
Qed.

(** What each written cell is, relative to its line. *)
Definition line_cell (line cell : list Z) : Prop :=
  exists pre suf,
    clean_line line = (pre ++ cell ++ suf)%list /\
    Forall space pre /\ Forall space suf /\
    Forall (fun c => is_ascii c = true) cell /\
    (cell = [] \/
     ((exists c, hd_error cell = Some c /\ is_space c = false) /\
      (exists c, hd_error (rev cell) = Some c /\ is_space c = false))).

Lemma line_cell_strip line : line_cell line (strip (clean_line line)).
Proof.
  destruct (strip_spec (clean_line line)) as (pre & suf & E & Fp & Fs & Hb).
  exists pre, suf; split; [exact E|split; [exact Fp|split; [exact Fs|split; [|exact Hb]]]].
  assert (Fc : Forall (fun c => is_ascii c = true) (clean_line line))
    by (apply Forall_forall; intros x Hx; apply filter_In in Hx; apply Hx).
  rewrite E in Fc; apply Forall_app in Fc as [_ Fc]; apply Forall_app in Fc as [Fc _].
  exact Fc.
Qed.

Lemma text_cells_lines content :
  Forall2 line_cell (split_lines content) (text_cells content).
Proof.
  unfold text_cells; induction (split_lines content) as [|l ls IH]; simpl;
    constructor; [apply line_cell_strip|exact IH].
Qed.

End TextFacts.

(* ------------------------------------------------------------------ *)
(** ** Sample host used to instantiate the theorems *)

Module Sample.

Import Py Host Pdfify.

(** ["hi\n \u{1F600}\n"] as code points. *)
Definition notes : list Z := [104; 105; 10; 32; 128512; 10]%Z.

(** A home directory with a document, an image with alpha channel, a text
    file whose second line holds a non-ASCII code point, an archive, and an
    indented markdown line. *)
Definition world : World :=
  MkWorld "/home/u" ["/home/u"; "/home/u/pdf_output"]
    [("/home/u/report.docx", CBlob);
     ("/home/u/notes.txt", CText notes);
     ("/home/u/photo.png", CImage "PNG" 800 600 "RGBA");
     ("/home/u/archive.zip", CBlob);
     ("/home/u/indented.md", CText [32; 32; 120]%Z)]
    [].

(** Two files with the same base name and different extensions. *)
Definition world_same_stem : World :=
  MkWorld "/home/u" ["/home/u"; "/home/u/pdf_output"]
    [("/home/u/a.txt", CText [104; 105]%Z);
     ("/home/u/a.jpg", CImage "JPEG" 2 3 "RGB")]
    [].

(** [abiword] exiting with status [rc]; on success it writes
    [<basename-without-ext>.pdf] in its working directory. *)
Definition abiword_exit (rc : Z) (created : bool) : string -> string -> Z * string * list (string * content) :=
  fun _ input =>
    (rc, "abiword: failed to load document",
     if created then [(fst (splitext (basename input)) ++ ".pdf", CBlob)] else []).

Definition env_with (rc : Z) (created : bool) : Env :=
  MkEnv true true (abiword_exit rc created) (fun _ => []) (fun _ => None).

Definition env : Env := env_with 0 true.

End Sample.

(* ------------------------------------------------------------------ *)
(** ** The claims *)

Module Claims.

Import Py Host Pdfify Frame Converters Driver.

(** The classification of an extension as the specification words it:
    case-insensitively, Text ([.txt .md .csv]), Image
    ([.jpg .jpeg .png .bmp .gif]), Document ([.docx .doc]), or none. *)
Inductive kind := KText | KImage | KDocument.

Definition spec_kind (ext : string) : option kind :=
  let e := lower ext in
  if existsb (String.eqb e) [".txt"; ".md"; ".csv"] then Some KText
  else if existsb (String.eqb e) [".jpg"; ".jpeg"; ".png"; ".bmp"; ".gif"] then Some KImage
  else if existsb (String.eqb e) [".docx"; ".doc"] then Some KDocument
  else None.

Definition converter_of (k : kind) : string -> string -> M bool :=
  match k with
  | KText => convert_txt_to_pdf
  | KImage => convert_image_to_pdf
  | KDocument => convert_docx_to_pdf
  end.

(** ** C9 *)

(** The [try:] block of [convert_txt_to_pdf] (lines 26-38). *)
Definition txt_try (input_file output_file : string) : M bool :=
  let pdf := Fpdf.set_font "Arial" 12
               (Fpdf.add_page (Fpdf.new Fpdf.Portrait Fpdf.Mm Fpdf.A4)) in
  c <- read_file input_file ;;
  env <- get_env ;;
  let text := match c with CText cps => cps | other => decode_other env other end in
  let pdf' := fold_left (fun p line => Fpdf.cell (Text.strip (Text.clean_line line)) p)
                (Text.split_lines text) pdf in
  write_file output_file (CPdf pdf') ;;
  ret true.

(** The [try:] block of [convert_image_to_pdf] (lines 47-66). *)
Definition image_try (input_file output_file : string) : M bool :=
  c <- read_file input_file ;;
  match c with
  | CImage _ width height mode0 =>
      mode <- (if negb (String.eqb mode0 "RGB")
               then check_fault (OpConvert mode0) ;; ret "RGB"
               else ret mode0) ;;
      let temp_jpg := input_file ++ ".temp.jpg" in
      write_file temp_jpg (CImage "JPEG" width height mode) ;;
      let pdf := Fpdf.add_page
                   (Fpdf.new Fpdf.Portrait Fpdf.Pt
                      (Fpdf.Size (inject_Z width) (inject_Z height))) in
      t <- read_file temp_jpg ;;
      match t with
      | CImage _ _ _ m =>
          let pdf' := Fpdf.image
                        (Fpdf.Placed temp_jpg m 0 0 (inject_Z width) (inject_Z height))
                        pdf in
          write_file output_file (CPdf pdf') ;;
          remove temp_jpg ;;
          ret true
      | _ => raise (PyExn ValueError "Unsupported image type" "")
      end
  | _ => raise (PyExn UnidentifiedImageError
                  ("cannot identify image file '" ++ input_file ++ "'") "")
  end.

(** The [try:] block of [convert_docx_to_pdf] (lines 75-104). *)
Definition docx_try (input_file output_file : string) : M bool :=
  let od := dirname output_file in
  let output_dir := if String.eqb od "" then "." else od in
  current_dir <- getcwd ;;
  chdir output_dir ;;
  run_abiword input_file ;;
  chdir current_dir ;;
  let base_name := basename input_file in
  let name_without_ext := fst (splitext base_name) in
  let expected_pdf := join output_dir (name_without_ext ++ ".pdf") in
  ex <- path_exists expected_pdf ;;
  (if ex && negb (String.eqb expected_pdf output_file)
   then rename expected_pdf output_file else ret tt) ;;
  ret true.

(** The outcome of [try: m except ...: h(e)] for a block [m] that only
    returns [True] and a handler that logs [L e] and returns [False]. *)
Lemma try_outcome (m : M bool) (h : exn -> M bool) (L : exn -> list string) env w :
  post (eq true) m ->
  (forall e env w, h e env w =
     (Ok false, MkWorld (cwd w) (dirs w) (files w) (stdout w ++ L e)%list)) ->
  match m env w with
  | (Ok b, w1) => b = true /\ try_except m h env w = (Ok true, w1)
  | (Exc e, w1) => try_except m h env w =
      (Ok false, MkWorld (cwd w1) (dirs w1) (files w1) (stdout w1 ++ L e)%list)
  end.
Proof.
  intros Hp Hh; unfold try_except.
  destruct (m env w) as [[b|e] w1] eqn:E.
  - pose proof (Hp env w b w1 E) as <-; split; reflexivity.
  - apply Hh.
Qed.

(** C9: for each converter, an exception raised anywhere in its [try:]
    block is caught at the converter's boundary: the converter returns
    [false] and logs the error message (for [convert_docx_to_pdf], also
    the captured stderr of a [CalledProcessError]), with the rest of the
    world as the block left it.  When the block raises nothing, the
    converter returns [true]; so [false] comes exactly from an error.  The
    dispatcher built on the converters never raises either. *)
Theorem converters_never_raise (i o dir : string) (env : Env) (w : World) :
  match txt_try i o env w with
  | (Ok b, w1) => b = true /\ convert_txt_to_pdf i o env w = (Ok true, w1)
  | (Exc e, w1) => convert_txt_to_pdf i o env w =
      (Ok false, MkWorld (cwd w1) (dirs w1) (files w1) (stdout w1 ++ txt_log e)%list)
  end /\
  match image_try i o env w with
  | (Ok b, w1) => b = true /\ convert_image_to_pdf i o env w = (Ok true, w1)
  | (Exc e, w1) => convert_image_to_pdf i o env w =
      (Ok false, MkWorld (cwd w1) (dirs w1) (files w1) (stdout w1 ++ image_log e)%list)
  end /\
  match docx_try i o env w with
  | (Ok b, w1) => b = true /\ convert_docx_to_pdf i o env w = (Ok true, w1)
  | (Exc e, w1) => convert_docx_to_pdf i o env w =
      (Ok false, MkWorld (cwd w1) (dirs w1) (files w1) (stdout w1 ++ docx_log e)%list)
  end /\
  (exists r w', convert_to_pdf i dir env w = (Ok r, w')).
Proof.
  split; [|split; [|split]].
  - apply (try_outcome (txt_try i o)
             (fun e => if is_Exception (cls e) then
                         print ("Error converting text file: " ++ msg e) ;; ret false
                       else raise e) txt_log).
    + unfold txt_try; repeat post_step; reflexivity.
    + intros e env' w'; reflexivity.
  - apply (try_outcome (image_try i o)
             (fun e => if is_Exception (cls e) then
                         print ("Error converting image: " ++ msg e) ;; ret false
                       else raise e) image_log).
    + unfold image_try; repeat post_step; reflexivity.
    + intros e env' w'; reflexivity.
  - apply (try_outcome (docx_try i o)
             (fun e => if is_CalledProcessError (cls e) then
                         print ("Error running AbiWord: " ++ msg e) ;;
                         print ("STDERR: " ++ stderr e) ;;
                         ret false
                       else if is_Exception (cls e) then
                         print ("Error converting DOCX: " ++ msg e) ;; ret false
                       else raise e) docx_log).
    + unfold docx_try; repeat post_step; reflexivity.
    + intros e env' w'; unfold docx_log; destruct (is_CalledProcessError (cls e));
        cbn [bind print ret stdout cwd dirs files]; [rewrite <- app_assoc|];
        reflexivity.
  - destruct (convert_to_pdf_total i dir env w) as (r & w' & E & _ & _); eauto.
Qed.

(** ** C6 *)

(** C6: the dispatcher derives [<output_dir>/<basename-without-ext>.pdf],
    runs the converter of the case-insensitive class of the extension on it
    and returns that path when the converter succeeds; it returns [None]
    when the converter fails or the extension is unsupported. *)
Theorem dispatcher_contract (input dir : string) (env : Env) (w : World) :
  let out := output_path input dir in
  let w1 := log_world (converting_msg input dir) w in
  (match spec_kind (snd (splitext (basename input))) with
   | None => exists w', convert_to_pdf input dir env w = (Ok None, w')
   | Some k => exists b w', converter_of k input out env w1 = (Ok b, w') /\
       convert_to_pdf input dir env w = (Ok (if b then Some out else None), w')
   end) /\
  out = join dir (fst (splitext (basename input)) ++ ".pdf") /\
  (dir <> "" -> ends_with_slash dir = false ->
   out = dir ++ "/" ++ fst (splitext (basename input)) ++ ".pdf").
Proof.
  cbv zeta; split; [|split; [reflexivity|apply Paths.output_path_slash]].
  rewrite convert_to_pdf_eq; cbv zeta; unfold spec_kind, run_conv; cbv zeta.
  unfold text_exts, image_exts, doc_exts, str_in.
  set (w1 := log_world _ w).
  destruct (existsb _ [".txt"; ".md"; ".csv"]);
  [|destruct (existsb _ [".jpg"; ".jpeg"; ".png"; ".bmp"; ".gif"]);
    [|destruct (existsb _ [".docx"; ".doc"])]]; cbn [converter_of];
  [ destruct (convert_txt_to_pdf_total input (output_path input dir) env w1)
      as (b & w' & E & _)
  | destruct (convert_image_to_pdf_total input (output_path input dir) env w1)
      as (b & w' & E & _)
  | destruct (convert_docx_to_pdf_total input (output_path input dir) env w1)
      as (b & w' & E & _)
  | eexists; reflexivity ];
  exists b, w'; rewrite E; split; reflexivity.
Qed.

Lemma dispatcher_contract_witness :
  let out := output_path "/home/u/Notes.TXT" "/home/u/pdf_output" in
  out = "/home/u/pdf_output/Notes.pdf" /\
  spec_kind (snd (splitext (basename "/home/u/Notes.TXT"))) = Some KText /\
  (exists b w', converter_of KText "/home/u/Notes.TXT" out Sample.env
      (log_world (converting_msg "/home/u/Notes.TXT" "/home/u/pdf_output") Sample.world)
      = (Ok b, w') /\
    convert_to_pdf "/home/u/Notes.TXT" "/home/u/pdf_output" Sample.env Sample.world
      = (Ok (if b then Some out else None), w')).
Proof.
  cbv zeta; split; [reflexivity|split; [reflexivity|]].
  exact (proj1 (dispatcher_contract "/home/u/Notes.TXT" "/home/u/pdf_output"
                  Sample.env Sample.world)).
Defined.

(** ** C5 *)

(** C5: the loop of [main] records exactly one result, in the succeeded or
    the failed list, for each listed entry that is not a directory, not the
    script and has a supported extension, and none for the others; the
    summary's total is the sum of the two counts. *)
Theorem one_result_per_supported_file (script cur out : string) (names : list string)
    (env : Env) (w : World) (Habs : starts_with_slash cur = true) :
  exists c f w',
    main_loop script cur out names ([], []) env w = (Ok (c, f), w') /\
    Permutation (c ++ f) (filter (eligible script cur (dirs w)) names) /\
    total_processed (summary c f) = (succeeded_count (summary c f) + failed_count (summary c f))%nat.
Proof.
  destruct (Loop.main_loop_perm script cur out env Habs names [] [] w)
    as (c & f & w' & E & _ & P).
  exists c, f, w'; split; [exact E|split; [exact P|reflexivity]].
Qed.

Lemma one_result_per_supported_file_witness :
  starts_with_slash "/home/u" = true /\
  exists c f w',
    main_loop "pdfify.py" "/home/u" "/home/u/pdf_output"
      ["report.docx"; "pdfify.py"; "pdf_output"; "notes.txt"; "photo.png"; "archive.zip"]
      ([], []) Sample.env Sample.world = (Ok (c, f), w') /\
    Permutation (c ++ f)
      (filter (eligible "pdfify.py" "/home/u" (dirs Sample.world))
         ["report.docx"; "pdfify.py"; "pdf_output"; "notes.txt"; "photo.png"; "archive.zip"]) /\
    total_processed (summary c f) = (succeeded_count (summary c f) + failed_count (summary c f))%nat.
Proof.
  split; [reflexivity|].
  apply one_result_per_supported_file; reflexivity.
Defined.

(** ** C8 *)

(** C8: a supported, non-directory file other than the script is recorded
    as converted exactly when the dispatcher returned a path and that path
    exists right after the conversion; otherwise it is recorded as failed. *)
Theorem recorded_success_iff_output_exists (script cur out : string)
    (c f : list string) (n : string) (env : Env) (w : World)
    (Hd : is_dir_w w (join cur n) = false) (Hs : String.eqb n script = false)
    (Hx : str_in (lower (snd (splitext n))) supported_extensions = true) :
  exists r w1 acc w',
    convert_to_pdf (join cur n) out env w = (Ok r, w1) /\
    process_file script cur out (c, f) n env w = (Ok acc, w') /\
    ((acc = ((c ++ [n])%list, f) /\
      exists p, r = Some p /\ (is_dir_w w1 p || is_file_w w1 p) = true) \/
     (acc = (c, (f ++ [n])%list) /\
      forall p, r = Some p -> (is_dir_w w1 p || is_file_w w1 p) = false)).
Proof.
  destruct (convert_to_pdf_total (join cur n) out env w) as (r & w1 & E & _ & _).
  rewrite (process_file_converts script cur out c f n env w r w1 Hd Hs Hx E).
  unfold conversion_ok.
  destruct r as [p|].
  - destruct (is_dir_w w1 p || is_file_w w1 p) eqn:Ex.
    + do 4 eexists; split; [exact E|split; [reflexivity|]].
      left; split; [reflexivity|eauto].
    + do 4 eexists; split; [exact E|split; [reflexivity|]].
      right; split; [reflexivity|]; intros p' [= <-]; exact Ex.
  - do 4 eexists; split; [exact E|split; [reflexivity|]].
    right; split; [reflexivity|]; discriminate.
Qed.

Lemma recorded_success_iff_output_exists_witness :
  is_dir_w Sample.world (join "/home/u" "photo.png") = false /\
  String.eqb "photo.png" "pdfify.py" = false /\
  str_in (lower (snd (splitext "photo.png"))) supported_extensions = true /\
  exists r w1 acc w',
    convert_to_pdf (join "/home/u" "photo.png") "/home/u/pdf_output" Sample.env Sample.world
      = (Ok r, w1) /\
    process_file "pdfify.py" "/home/u" "/home/u/pdf_output" ([], []) "photo.png"
      Sample.env Sample.world = (Ok acc, w') /\
    ((acc = (([] ++ ["photo.png"])%list, []) /\
      exists p, r = Some p /\ (is_dir_w w1 p || is_file_w w1 p) = true) \/
     (acc = ([], ([] ++ ["photo.png"])%list) /\
      forall p, r = Some p -> (is_dir_w w1 p || is_file_w w1 p) = false)).
Proof.
  split; [reflexivity|split; [reflexivity|split; [reflexivity|]]].
  apply recorded_success_iff_output_exists; reflexivity.
Defined.

(** ** C7 *)

Import Steps.

Lemma to_rgb_ok env w mode :
  no_faults env ->
  (if negb (String.eqb mode "RGB") then check_fault (OpConvert mode) ;; ret "RGB"
   else ret mode) env w = (Ok "RGB", w).
Proof.
  intros Hf; destruct (String.eqb_spec mode "RGB") as [->|_]; cbn [negb].
  - reflexivity.
  - exact (bind_ok _ _ _ _ _ _ (check_fault_ok env w _ Hf)).
Qed.

Lemma inject_Z_mul_1 z : (inject_Z z * 1)%Q = inject_Z z.
Proof. unfold Qmult, inject_Z; simpl; rewrite Z.mul_1_r; reflexivity. Qed.

(** C7: for a readable image, with the temporary copy and the output in
    existing directories and no host failure, the image converter succeeds
    and writes a PDF whose single page is, in points, the image's size in
    pixels, holding the image converted to RGB at full page size. *)
Theorem image_page_matches_pixels (input output fmt mode : string) (width height : Z)
    (env : Env) (w : World)
    (Hf : no_faults env)
    (Hin_dir : is_dir_w w input = false)
    (Hin : lookup (abspath (cwd w) input) (files w) = Some (CImage fmt width height mode))
    (Ht_dir : str_in (abspath (cwd w) (input ++ ".temp.jpg")) (dirs w) = false)
    (Ht_par : str_in (dirname (abspath (cwd w) (input ++ ".temp.jpg"))) (dirs w) = true)
    (Ho_dir : str_in (abspath (cwd w) output) (dirs w) = false)
    (Ho_par : str_in (dirname (abspath (cwd w) output)) (dirs w) = true)
    (Hne : abspath (cwd w) output <> abspath (cwd w) (input ++ ".temp.jpg")) :
  exists w' p,
    convert_image_to_pdf input output env w = (Ok true, w') /\
    lookup (abspath (cwd w) output) (files w') = Some (CPdf p) /\
    Fpdf.w_pt p = inject_Z width /\ Fpdf.h_pt p = inject_Z height /\
    Fpdf.pages p = 1%nat /\
    Fpdf.images p =
      [Fpdf.Placed (input ++ ".temp.jpg") "RGB" 0 0 (inject_Z width) (inject_Z height)].
Proof.
  do 2 eexists; split.
  { unfold convert_image_to_pdf; apply try_ok.
    rewrite (bind_ok _ _ _ _ _ _ (read_file_ok env w input _ Hf Hin_dir Hin)).
    cbv beta iota zeta.
    rewrite (bind_ok _ _ _ _ _ _ (to_rgb_ok env w mode Hf)).
    rewrite (bind_ok _ _ _ _ _ _ (write_file_ok env w _ _ Hf Ht_dir Ht_par)).
    match goal with
    | |- context [bind (read_file ?p) ?k ?env ?w1] =>
        rewrite (bind_ok (read_file p) k env w1 _ _
                   (read_file_ok env w1 p _ Hf Ht_dir (lookup_store_eq _ _ _)))
    end.
    cbv beta iota.
    match goal with
    | |- context [bind (write_file ?p ?c) ?k ?env ?w1] =>
        rewrite (bind_ok (write_file p c) k env w1 _ _
                   (write_file_ok env w1 p c Hf Ho_dir Ho_par))
    end.
    match goal with
    | |- context [bind (remove ?p) ?k ?env ?w2] =>
        assert (L : lookup (abspath (cwd w2) p) (files w2)
                    = Some (CImage "JPEG" width height "RGB"))
          by (cbn [cwd files];
              rewrite lookup_store_neq by (intro E; apply Hne; symmetry; exact E);
              apply lookup_store_eq);
        rewrite (bind_ok (remove p) k env w2 _ _ (remove_ok env w2 p _ Hf L))
    end.
    reflexivity. }
  cbn [files cwd].
  rewrite lookup_remove_neq by exact Hne; rewrite lookup_store_eq.
  split; [reflexivity|].
  cbn; rewrite !inject_Z_mul_1; auto.
Qed.

Lemma image_page_matches_pixels_witness :
  exists w' p,
    convert_image_to_pdf "/home/u/photo.png" "/home/u/pdf_output/photo.pdf" Sample.env Sample.world
      = (Ok true, w') /\
    lookup "/home/u/pdf_output/photo.pdf" (files w') = Some (CPdf p) /\
    Fpdf.w_pt p = inject_Z 800 /\ Fpdf.h_pt p = inject_Z 600 /\ Fpdf.pages p = 1%nat /\
    Fpdf.images p =
      [Fpdf.Placed "/home/u/photo.png.temp.jpg" "RGB" 0 0 (inject_Z 800) (inject_Z 600)].
Proof.
  apply (image_page_matches_pixels "/home/u/photo.png" "/home/u/pdf_output/photo.pdf"
           "PNG" "RGBA" 800 600 Sample.env Sample.world);
    [intros o; reflexivity|reflexivity..|vm_compute; discriminate].
Defined.

(** ** C3 *)

Import TextFacts.

(** The text the claim describes: each line with the code points at or
    above 128 removed (and its line terminator). *)
Definition drop_newline (line : list Z) : list Z :=
  match rev line with
  | c :: r => if (c =? Text.LF)%Z then rev r else line
  | [] => []
  end.

Definition spec_text_cells (content : list Z) : list (list Z) :=
  map (fun line => Text.clean_line (drop_newline line)) (Text.split_lines content).

(** C3 fails: the line ["  x"] is written as ["x"]: the converter also
    strips leading and trailing white space. *)
Lemma text_converter_strips_indentation :
  exists w' p,
    convert_txt_to_pdf "/home/u/indented.md" "/home/u/pdf_output/indented.pdf"
      Sample.env Sample.world = (Ok true, w') /\
    lookup "/home/u/pdf_output/indented.pdf" (files w') = Some (CPdf p) /\
    Fpdf.cells p = [[120%Z]] /\
    spec_text_cells [32; 32; 120]%Z = [[32; 32; 120]%Z] /\
    Fpdf.cells p <> spec_text_cells [32; 32; 120]%Z.
Proof.
  vm_compute; do 2 eexists; split; [reflexivity|].
  split; [reflexivity|split; [reflexivity|split; [reflexivity|discriminate]]].
Qed.

(** C3 (amended): for a readable text file, the converter writes one cell
    per line of the file; each cell is the line with the code points at or
    above 128 removed and then its leading and trailing white space
    (including the line terminator) removed: the cell is ASCII, starts and
    ends with a non-space, and only white space surrounds it in the
    ASCII-filtered line. *)
Theorem text_cells_ascii_stripped (input output : string) (cps : list Z)
    (env : Env) (w : World)
    (Hf : no_faults env)
    (Hin_dir : is_dir_w w input = false)
    (Hin : lookup (abspath (cwd w) input) (files w) = Some (CText cps))
    (Ho_dir : str_in (abspath (cwd w) output) (dirs w) = false)
    (Ho_par : str_in (dirname (abspath (cwd w) output)) (dirs w) = true) :
  exists w' p,
    convert_txt_to_pdf input output env w = (Ok true, w') /\
    lookup (abspath (cwd w) output) (files w') = Some (CPdf p) /\
    Fpdf.cells p = Text.text_cells cps /\
    concat (Text.split_lines cps) = cps /\
    Forall2 line_cell (Text.split_lines cps) (Fpdf.cells p).
Proof.
  do 2 eexists; split.
  { unfold convert_txt_to_pdf; apply try_ok; cbv zeta.
    rewrite (bind_ok _ _ _ _ _ _ (read_file_ok env w input _ Hf Hin_dir Hin)).
    unfold bind at 1; cbn [get_env].
    rewrite (bind_ok _ _ _ _ _ _ (write_file_ok env w output _ Hf Ho_dir Ho_par)).
    reflexivity. }
  cbn [files]; rewrite lookup_store_eq.
  split; [reflexivity|].
  rewrite fold_cells; cbn [Fpdf.cells Fpdf.new Fpdf.add_page Fpdf.set_font app].
  split; [reflexivity|split; [apply split_lines_concat|apply text_cells_lines]].
Qed.

Lemma text_cells_ascii_stripped_witness :
  exists w' p,
    convert_txt_to_pdf "/home/u/notes.txt" "/home/u/pdf_output/notes.pdf"
      Sample.env Sample.world = (Ok true, w') /\
    lookup "/home/u/pdf_output/notes.pdf" (files w') = Some (CPdf p) /\
    Fpdf.cells p = Text.text_cells Sample.notes /\
    concat (Text.split_lines Sample.notes) = Sample.notes /\
    Forall2 line_cell (Text.split_lines Sample.notes) (Fpdf.cells p).
Proof.
  apply (text_cells_ascii_stripped "/home/u/notes.txt" "/home/u/pdf_output/notes.pdf"
           _ Sample.env Sample.world);
    [intros o; reflexivity|reflexivity..].
Defined.

(** ** C10 *)

(** C10: two inputs with the same base name without extension get the same
    output path from the dispatcher; in a directory holding [a.txt] and
    [a.jpg], both are counted as converted while a single [a.pdf] remains,
    the image PDF written last over the text PDF. *)
Theorem same_stem_same_output (i1 i2 dir : string)
    (Hstem : fst (splitext (basename i1)) = fst (splitext (basename i2))) :
  output_path i1 dir = output_path i2 dir /\
  (forall env w r w', convert_to_pdf i1 dir env w = (Ok (Some r), w') ->
     r = output_path i2 dir) /\
  exists w' p,
    main_loop "pdfify.py" "/home/u" "/home/u/pdf_output" ["a.txt"; "a.jpg"] ([], [])
      Sample.env Sample.world_same_stem = (Ok (["a.txt"; "a.jpg"], []), w') /\
    succeeded_count (summary ["a.txt"; "a.jpg"] []) = 2%nat /\
    filter (fun pc => String.eqb (fst pc) "/home/u/pdf_output/a.pdf") (files w')
      = [("/home/u/pdf_output/a.pdf", CPdf p)] /\
    Fpdf.cells p = [] /\ Fpdf.images p <> [].
Proof.
  assert (Ho : output_path i1 dir = output_path i2 dir)
    by (unfold output_path; rewrite Hstem; reflexivity).
  split; [exact Ho|split].
  - intros env w r w' E.
    destruct (convert_to_pdf_total i1 dir env w) as (r' & w1 & E' & _ & Hp).
    rewrite E in E'; injection E' as <- _.
    rewrite <- Ho; apply Hp; reflexivity.
  - vm_compute; do 2 eexists; split; [reflexivity|].
    split; [reflexivity|split; [reflexivity|split; [reflexivity|discriminate]]].
Qed.

Lemma same_stem_same_output_witness :
  fst (splitext (basename "/home/u/a.txt")) = fst (splitext (basename "/home/u/a.jpg")) /\
  output_path "/home/u/a.txt" "/home/u/pdf_output"
  = output_path "/home/u/a.jpg" "/home/u/pdf_output".
Proof.
  split; [reflexivity|].
  apply (same_stem_same_output "/home/u/a.txt" "/home/u/a.jpg" "/home/u/pdf_output").
  reflexivity.
Defined.

(** ** C4 *)

(** A host on which [which] itself cannot be run. *)
Definition no_which_env : Env :=
  MkEnv false false (Sample.abiword_exit 0 true) (fun _ => []) (fun _ => None).

(** C4 fails: when [which] itself cannot be run, [subprocess.run] raises
    [FileNotFoundError] in [check_dependencies], which handles only
    [CalledProcessError]; the exception leaves the probe and aborts [main]
    before anything is printed, created or converted. *)
Theorem main_aborts_without_which (script : string) (env : Env) (w : World)
  (Hw : which_available env = false) :
  check_dependencies env w = (Exc (enoent "which"), w) /\
  main script env w = (Exc (enoent "which"), w).
Proof.
  assert (H : check_dependencies env w = (Exc (enoent "which"), w))
    by (unfold check_dependencies, try_except, run_which, bind, get_env;
        rewrite Hw; reflexivity).
  split; [exact H|].
  unfold main, bind at 1; rewrite H; reflexivity.
Qed.

Lemma main_aborts_without_which_witness :
  which_available no_which_env = false /\
  check_dependencies no_which_env Sample.world = (Exc (enoent "which"), Sample.world) /\
  main "pdfify.py" no_which_env Sample.world = (Exc (enoent "which"), Sample.world).
Proof.
  split; [reflexivity|].
  apply (main_aborts_without_which "pdfify.py" no_which_env Sample.world).
  reflexivity.
Defined.

(** The outcome of [check_dependencies]: it returns nothing (no presence
    flag).  When [which] can be run it never raises: it prints
    ["AbiWord is installed."] when abiword is found, and otherwise a
    warning followed by the install recommendation.  When [which] itself
    cannot be run, [FileNotFoundError] propagates and nothing is printed. *)
Theorem capability_probe_outcome (env : Env) (w : World) :
  check_dependencies env w =
  if which_available env then
    (Ok tt, MkWorld (cwd w) (dirs w) (files w)
              (stdout w ++
               (if abiword_on_path env then ["AbiWord is installed."]
                else ["WARNING: AbiWord is not installed. DOCX conversion will not work.";
                      "Install with: sudo apt-get install abiword"]))%list)
  else (Exc (enoent "which"), w).
Proof.
  unfold check_dependencies, try_except, run_which, bind, get_env.
  destruct (which_available env), (abiword_on_path env); cbn [negb]; try reflexivity.
  cbn; unfold print; cbn [stdout cwd dirs files]; rewrite <- app_assoc; reflexivity.
Qed.

(** ** C1 *)

Import Steps.

(** The directory [convert_docx_to_pdf] changes to. *)
Definition docx_output_dir (output_file : string) : string :=
  let od := dirname output_file in if String.eqb od "" then "." else od.

(** The message of the [CalledProcessError] of a failed abiword run. *)
Definition abiword_error (input_file : string) : string :=
  "Command '['abiword', '--to=pdf', '" ++ input_file ++ "']' returned non-zero exit status.".

Lemma run_abiword_step env w input rc err created :
  abiword_on_path env = true ->
  abiword_run env (cwd w) input = (rc, err, created) ->
  run_abiword input env w =
  (if (rc =? 0)%Z then Ok tt else Exc (PyExn CalledProcessError (abiword_error input) err),
   MkWorld (cwd w) (dirs w)
     (fold_left (fun fs pc => store (abspath (cwd w) (fst pc)) (snd pc) fs) created (files w))
     (stdout w)).
Proof.
  intros Ha Hr; unfold run_abiword, bind, get_env, get_world, put_world.
  rewrite Ha; cbn [negb]; rewrite Hr.
  destruct (rc =? 0)%Z; reflexivity.
Qed.

Lemma bind_exc {A B} (m : M A) (k : A -> M B) env w e w1 :
  m env w = (Exc e, w1) -> bind m k env w = (Exc e, w1).
Proof. intros E; unfold bind; rewrite E; reflexivity. Qed.

(** C1 fails: abiword exits with status 0 without writing the PDF; the
    converter still returns [true] and the expected file does not exist. *)
Lemma docx_success_without_output :
  exists w',
    convert_docx_to_pdf "/home/u/report.docx" "/home/u/pdf_output/report.pdf"
      (Sample.env_with 0 false) Sample.world = (Ok true, w') /\
    lookup "/home/u/pdf_output/report.pdf" (files w') = None.
Proof. vm_compute; eexists; split; reflexivity. Qed.

(** C1 (amended): when the working directory and the output directory
    exist, abiword is on the path, and the file abiword is expected to
    produce is the output path, the converter returns [true] exactly when
    abiword exits with status 0, whatever files abiword wrote (in
    particular also when the expected PDF was not written).  On a non-zero
    exit it returns [false] and logs the error and abiword's stderr. *)
Theorem docx_result_is_exit_status (input output : string) (env : Env) (w : World)
    (rc : Z) (err : string) (created : list (string * content))
    (Hf : no_faults env)
    (Hcwd_abs : starts_with_slash (cwd w) = true)
    (Hcwd : str_in (cwd w) (dirs w) = true)
    (Hod : str_in (abspath (cwd w) (docx_output_dir output)) (dirs w) = true)
    (Hexp : String.eqb (join (docx_output_dir output)
                          (fst (splitext (basename input)) ++ ".pdf")) output = true)
    (Hab : abiword_on_path env = true)
    (Hrun : abiword_run env (abspath (cwd w) (docx_output_dir output)) input
            = (rc, err, created)) :
  exists w',
    convert_docx_to_pdf input output env w = (Ok (rc =? 0)%Z, w') /\
    files w' = fold_left (fun fs pc =>
                 store (abspath (abspath (cwd w) (docx_output_dir output)) (fst pc))
                   (snd pc) fs) created (files w) /\
    stdout w' = (stdout w ++
                 (if (rc =? 0)%Z then []
                  else [("Error running AbiWord: " ++ abiword_error input)%string;
                        ("STDERR: " ++ err)%string]))%list.
Proof.
  unfold convert_docx_to_pdf; cbv zeta.
  fold (docx_output_dir output).
  set (d := docx_output_dir output) in *.
  set (w1 := MkWorld (abspath (cwd w) d) (dirs w) (files w) (stdout w)).
  set (fs := fold_left _ created (files w)).
  set (w2 := MkWorld (abspath (cwd w) d) (dirs w) fs (stdout w)).
  assert (Hrun1 : run_abiword input env w1 =
    (if (rc =? 0)%Z then Ok tt else Exc (PyExn CalledProcessError (abiword_error input) err),
     w2)) by exact (run_abiword_step env w1 input rc err created Hab Hrun).
  unfold try_except.
  rewrite (bind_ok _ _ _ _ _ _ (getcwd_ok env w Hf)).
  rewrite (bind_ok _ _ _ _ _ _ (chdir_ok env w d Hf Hod)).
  fold w1.
  destruct (rc =? 0)%Z eqn:Erc.
  - rewrite (bind_ok _ _ _ _ _ _ Hrun1).
    assert (Hback : chdir (cwd w) env w2 =
                    (Ok tt, MkWorld (cwd w) (dirs w) fs (stdout w))).
    { rewrite (chdir_ok env w2 (cwd w) Hf); cbn [cwd w2];
        rewrite (abspath_absolute _ _ Hcwd_abs); [reflexivity|exact Hcwd]. }
    rewrite (bind_ok _ _ _ _ _ _ Hback).
    unfold bind at 1, path_exists.
    rewrite Hexp; rewrite andb_false_r.
    eexists; split; [reflexivity|split; [reflexivity|]].
    cbn [stdout]; rewrite app_nil_r; reflexivity.
  - rewrite (bind_exc _ _ _ _ _ _ Hrun1).
    eexists; split; [reflexivity|split; [reflexivity|]].
    cbn [stdout]; rewrite <- app_assoc; reflexivity.
Qed.

Lemma docx_result_is_exit_status_witness :
  exists w',
    convert_docx_to_pdf "/home/u/report.docx" "/home/u/pdf_output/report.pdf"
      (Sample.env_with 0 false) Sample.world = (Ok true, w') /\
    files w' = files Sample.world /\ stdout w' = [].
Proof.
  apply (docx_result_is_exit_status "/home/u/report.docx" "/home/u/pdf_output/report.pdf"
           (Sample.env_with 0 false) Sample.world 0 "abiword: failed to load document" []);
    [intros o; reflexivity|reflexivity..].
Defined.

(** ** C2 *)

(** C2 fails: when abiword exits with a non-zero status the
    [CalledProcessError] skips [os.chdir(current_dir)], so the call returns
    with the working directory left at the output directory. *)
Theorem docx_failure_leaves_cwd_changed :
  exists w',
    convert_docx_to_pdf "/home/u/report.docx" "/home/u/pdf_output/report.pdf"
      (Sample.env_with 1 false) Sample.world = (Ok false, w') /\
    cwd Sample.world = "/home/u" /\
    cwd w' = "/home/u/pdf_output".
Proof. vm_compute; eexists; split; [reflexivity|split; reflexivity]. Qed.

End Claims.

(** * Further properties of pdfify.py

    Path helpers, the converters' error and edge behaviour, what they
    write, and the outcome of [main]. *)
Module Extras.
Import Py Host Pdfify Frame Converters Driver Steps Claims.

(** Whether [c] occurs in [s]. *)
Fixpoint has_char (c : ascii) (s : string) : bool :=
  match s with
  | EmptyString => false
  | String a s' => Ascii.eqb a c || has_char c s'
  end.

(** [k] dots. *)
Fixpoint dots (k : nat) : string :=
  match k with
  | O => ""
  | S k' => String "." (dots k')
  end.

(** Whether a text still has an unterminated line, given the code points
    [cur] of the line read so far and the rest [s]. *)
Definition open_tail (cur s : list Z) : nat :=
  match s with
  | [] => match cur with [] => 0 | _ => 1 end
  | _ => if (last s 0%Z =? Text.LF)%Z then 0 else 1
  end%nat.

(** Content PIL can open as an image. *)
Definition is_image (c : content) : bool :=
  match c with CImage _ _ _ _ => true | _ => false end.

(** The entries [os.listdir] gives for the directory [d] (absolute). *)
Definition entries (d : string) (ds : list string) (fs : list (string * content))
    : list string :=
  map basename
    (filter (fun p => String.eqb (dirname p) d && negb (String.eqb p d))
       (ds ++ map fst fs)).

Lemma append_empty_r s : s ++ "" = s.
Proof. induction s; simpl; congruence. Qed.

Lemma str_length_app a b : String.length (a ++ b) = (String.length a + String.length b)%nat.
Proof. induction a; simpl; congruence. Qed.

Lemma str_app_assoc a b c : (a ++ b) ++ c = a ++ b ++ c.
Proof. induction a; simpl; congruence. Qed.

Lemma dots_length n : String.length (dots n) = n.
Proof. induction n; simpl; congruence. Qed.

Lemma has_char_app c a b : has_char c (a ++ b) = has_char c a || has_char c b.
Proof. induction a; simpl; [reflexivity|rewrite IHa, orb_assoc; reflexivity]. Qed.

Lemma has_char_get c s : (forall j, String.get j s <> Some c) -> has_char c s = false.
Proof.
  induction s as [|a s IH]; intros H; simpl; [reflexivity|].
  apply orb_false_iff; split.
  - apply Ascii.eqb_neq; intros ->; exact (H 0%nat eq_refl).
  - apply IH; intros j; exact (H (S j)).
Qed.

Lemma get_has_char c s j : has_char c s = false -> String.get j s <> Some c.
Proof.
  revert j; induction s as [|a s IH]; intros j H; simpl; [discriminate|].
  simpl in H; apply orb_false_iff in H as [Ha Hs].
  destruct j; [|exact (IH j Hs)].
  intros [= ->]; rewrite Ascii.eqb_refl in Ha; discriminate.
Qed.

Lemma rfind_from_app c a b i acc :
  rfind_from c (a ++ b) i acc
  = rfind_from c b (i + Z.of_nat (String.length a)) (rfind_from c a i acc).
Proof.
  revert i acc; induction a as [|x a IH]; intros i acc; simpl.
  - rewrite Z.add_0_r; reflexivity.
  - rewrite IH; f_equal; lia.
Qed.

Lemma rfind_from_none c s i acc : has_char c s = false -> rfind_from c s i acc = acc.
Proof.
  revert i acc; induction s as [|a s IH]; intros i acc H; simpl; [reflexivity|].
  simpl in H; apply orb_false_iff in H as [Ha Hs]; rewrite Ha; exact (IH _ _ Hs).
Qed.

Lemma rfind_from_lt c s i acc :
  (acc < i)%Z -> (rfind_from c s i acc < i + Z.of_nat (String.length s))%Z.
Proof.
  revert i acc; induction s as [|a s IH]; intros i acc H; simpl; [lia|].
  specialize (IH (i + 1)%Z (if (a =? c)%char then i else acc)).
  destruct (a =? c)%char; lia.
Qed.

Lemma substring_whole s : substring 0 (String.length s) s = s.
Proof. induction s; simpl; congruence. Qed.

Lemma substring_split n s : (n <= String.length s)%nat ->
  substring 0 n s ++ substring n (String.length s - n) s = s.
Proof.
  revert n; induction s as [|a s IH]; intros n H; destruct n; simpl in *;
    try reflexivity; try lia.
  - rewrite substring_whole; reflexivity.
  - f_equal; apply IH; lia.
Qed.

Lemma substring_app_prefix a s m :
  substring 0 (String.length a + m) (a ++ s) = a ++ substring 0 m s.
Proof. induction a; simpl; [reflexivity|congruence]. Qed.

Lemma substring_app_suffix a s m :
  substring (String.length a) m (a ++ s) = substring 0 m s.
Proof.
  induction a as [|x a IH]; simpl; [reflexivity|exact IH].
Qed.

(** [os.path.splitext] splits a path without losing anything: the root
    followed by the extension is the path. *)
Theorem splitext_round_trip p : fst (splitext p) ++ snd (splitext p) = p.
Proof.
  unfold splitext.
  pose proof (Paths.rfind_ge "/"%char p) as Hs.
  destruct (rfind "/" p <? rfind "." p)%Z eqn:Hlt; [|apply append_empty_r].
  destruct splitext_scan; [|apply append_empty_r].
  apply Z.ltb_lt in Hlt.
  pose proof (rfind_from_lt "."%char p 0 (-1) ltac:(lia)) as Hlen.
  unfold rfind in *; simpl fst; simpl snd; unfold slice_to, slice_from.
  apply substring_split; lia.
Qed.

Lemma rfind_from_dots n i acc :
  rfind_from "."%char (dots (S n)) i acc = (i + Z.of_nat n)%Z.
Proof.
  revert i acc; induction n as [|n IH]; intros i acc.
  - simpl; lia.
  - change (dots (S (S n))) with (String "." (dots (S n))).
    cbn [rfind_from]; rewrite IH; lia.
Qed.

Lemma has_char_dots c n : c <> "."%char -> has_char c (dots n) = false.
Proof.
  intros Hc; induction n as [|n IH]; cbn [has_char dots]; [reflexivity|].
  rewrite IH, orb_false_r; apply Ascii.eqb_neq; congruence.
Qed.

Lemma get_dots j n s : (j < n)%nat -> String.get j (dots n ++ s) = Some "."%char.
Proof.
  revert j; induction n as [|n IH]; intros j H; [lia|].
  destruct j; simpl; [reflexivity|apply IH; lia].
Qed.

Lemma scan_dots fuel n s j :
  (j <= Z.of_nat n)%Z -> (0 <= j)%Z -> (Z.to_nat (Z.of_nat n - j) < fuel)%nat ->
  splitext_scan fuel (dots (S n) ++ s) j (Z.of_nat n) = false.
Proof.
  revert j; induction fuel as [|fuel IH]; intros j H0 H1 Hf; [lia|].
  cbn [splitext_scan].
  destruct (j <? Z.of_nat n)%Z eqn:Hj; [|reflexivity].
  apply Z.ltb_lt in Hj.
  unfold char_at; rewrite get_dots by lia; cbn.
  apply IH; lia.
Qed.

Lemma splitext_dots n s :
  has_char "."%char s = false -> has_char "/"%char s = false ->
  splitext (dots (S n) ++ s) = (dots (S n) ++ s, "").
Proof.
  intros Hd Hs; unfold splitext, rfind.
  rewrite !rfind_from_app, rfind_from_dots, (rfind_from_none "."%char s _ _ Hd).
  rewrite (rfind_from_none "/"%char s _ _ Hs).
  rewrite (rfind_from_none "/"%char (dots (S n)) _ _ (has_char_dots "/"%char (S n) ltac:(intros Hc; discriminate Hc))).
  replace (-1 <? 0 + Z.of_nat n)%Z with true by (symmetry; apply Z.ltb_lt; lia).
  rewrite scan_dots; [reflexivity|lia|lia|].
  rewrite str_length_app, dots_length; lia.
Qed.

(** A file whose name has dots only at its start ([.txt], [..md],
    [.bashrc]) has no extension for [os.path.splitext], so the loop of
    [main] skips it and changes nothing. *)
Theorem dotfiles_skipped script cur out acc k s env w
    (Hdot : has_char "."%char s = false) (Hsl : has_char "/"%char s = false) :
  process_file script cur out acc (dots (S k) ++ s) env w = (Ok acc, w).
Proof.
  apply process_file_skips.
  rewrite (splitext_dots k s Hdot Hsl); cbn [snd lower].
  rewrite !orb_true_r; reflexivity.
Qed.

Lemma basename_no_slash p : has_char "/"%char (basename p) = false.
Proof.
  apply has_char_get; intros j.
  unfold basename, slice_from.
  pose proof (Paths.rfind_ge "/"%char p) as Hge.
  set (n := Z.to_nat (rfind "/" p + 1)).
  destruct (Nat.lt_ge_cases j (String.length p - n)) as [Hj|Hj].
  - rewrite substring_correct1 by exact Hj.
    apply (Paths.rfind_from_last "/"%char p 0 (-1)); [lia|].
    unfold n, rfind in *; rewrite Nat2Z.inj_add, Z2Nat.id; lia.
  - rewrite substring_correct2 by exact Hj; discriminate.
Qed.

Lemma has_char_prefix c m s : has_char c s = false -> has_char c (substring 0 m s) = false.
Proof.
  revert m; induction s as [|a s IH]; intros m H; destruct m; simpl in *; auto.
  apply orb_false_iff in H as [Ha Hs]; rewrite Ha; exact (IH m Hs).
Qed.

Lemma stem_no_slash p : has_char "/"%char (fst (splitext (basename p))) = false.
Proof.
  destruct (Paths.splitext_fst_cases (basename p)) as [H|[m H]]; rewrite H;
    [|apply has_char_prefix]; apply basename_no_slash.
Qed.

Lemma basename_plain x : has_char "/"%char x = false -> basename x = x.
Proof.
  intros H; unfold basename, slice_from, rfind.
  rewrite rfind_from_none by exact H; simpl.
  rewrite Nat.sub_0_r; apply substring_whole.
Qed.

Lemma basename_after_slash a x :
  has_char "/"%char x = false -> basename (a ++ "/" ++ x) = x.
Proof.
  intros H; unfold basename, slice_from, rfind.
  rewrite rfind_from_app; cbn [rfind_from String.append].
  rewrite Ascii.eqb_refl, rfind_from_none by exact H.
  pose proof (Paths.rfind_from_ge "/"%char a 0 (-1) ltac:(lia)).
  replace (Z.to_nat (0 + Z.of_nat (String.length a) + 1))
    with (String.length (a ++ "/")) by (rewrite str_length_app; simpl; lia).
  replace (a ++ String "/" x) with ((a ++ "/") ++ x) by apply str_app_assoc.
  rewrite substring_app_suffix, !str_length_app.
  replace (String.length a + String.length "/" + String.length x
           - (String.length a + String.length "/"))%nat
    with (String.length x) by lia.
  apply substring_whole.
Qed.

Lemma ends_with_slash_split s :
  ends_with_slash s = true -> exists s', s = s' ++ "/".
Proof.
  unfold ends_with_slash; intros H.
  destruct (rev (list_ascii_of_string s)) as [|a r] eqn:E; [discriminate|].
  apply Ascii.eqb_eq in H; subst a.
  exists (string_of_list_ascii (rev r)).
  rewrite <- (string_of_list_ascii_of_string s).
  apply (f_equal (@rev ascii)) in E; rewrite rev_involutive in E; rewrite E.
  cbn [rev]; generalize (rev r); intros l; induction l; simpl; congruence.
Qed.

(** Whatever the output directory, the dispatcher's output file is named
    [<basename-without-ext>.pdf]. *)
Theorem basename_output_path input dir :
  basename (output_path input dir) = fst (splitext (basename input)) ++ ".pdf".
Proof.
  assert (Hx : has_char "/"%char (fst (splitext (basename input)) ++ ".pdf") = false)
    by (rewrite has_char_app, stem_no_slash; reflexivity).
  unfold output_path, join; rewrite Paths.stem_pdf_relative.
  destruct (String.eqb_spec dir "") as [->|_]; cbn [orb].
  - apply basename_plain; exact Hx.
  - destruct (ends_with_slash dir) eqn:Ee.
    + destruct (ends_with_slash_split dir Ee) as [d ->].
      replace ((d ++ "/") ++ fst (splitext (basename input)) ++ ".pdf")
        with (d ++ "/" ++ fst (splitext (basename input)) ++ ".pdf")
        by (symmetry; apply str_app_assoc).
      apply basename_after_slash; exact Hx.
    + apply basename_after_slash; exact Hx.
Qed.

Lemma list_ascii_app a b :
  list_ascii_of_string (a ++ b) = (list_ascii_of_string a ++ list_ascii_of_string b)%list.
Proof. induction a; simpl; congruence. Qed.

Lemma all_slashes_app a b : all_slashes (a ++ b) = all_slashes a && all_slashes b.
Proof. induction a; simpl; [reflexivity|rewrite IHa, andb_assoc; reflexivity]. Qed.

Lemma all_slashes_ends s : all_slashes s = true -> s <> "" -> ends_with_slash s = true.
Proof.
  induction s as [|a s IH]; intros H Hne; [contradiction|].
  cbn [all_slashes] in H; apply andb_true_iff in H as [Ha Hs].
  unfold ends_with_slash; cbn [list_ascii_of_string rev].
  destruct s as [|b s].
  - exact Ha.
  - specialize (IH Hs ltac:(discriminate)); unfold ends_with_slash in IH.
    destruct (rev (list_ascii_of_string (String b s))); [discriminate|exact IH].
Qed.

Lemma dirname_slash d x :
  d <> "" -> ends_with_slash d = false -> has_char "/"%char x = false ->
  dirname (d ++ "/" ++ x) = d.
Proof.
  intros Hne He Hx; unfold dirname, slice_to, rfind.
  rewrite rfind_from_app; cbn [rfind_from String.append].
  rewrite Ascii.eqb_refl, rfind_from_none by exact Hx.
  replace (Z.to_nat (0 + Z.of_nat (String.length d) + 1))
    with (String.length d + 1)%nat by lia.
  rewrite substring_app_prefix; cbn [substring]; rewrite Paths.substring_zero.
  assert (Hs : all_slashes d = false).
  { destruct (all_slashes d) eqn:E; [|reflexivity].
    rewrite (all_slashes_ends d E Hne) in He; discriminate. }
  rewrite all_slashes_app, Hs; cbn [andb negb].
  destruct (String.eqb_spec (d ++ "/") "") as [E|_].
  { destruct d; discriminate. }
  cbn [andb negb]; unfold rstrip_slashes.
  rewrite list_ascii_app, rev_app_distr; cbn [list_ascii_of_string rev app].
  cbn [rstrip_slashes_rev]; rewrite Ascii.eqb_refl.
  unfold ends_with_slash in He.
  destruct (rev (list_ascii_of_string d)) as [|b r] eqn:E.
  { destruct d; [contradiction|simpl in E; destruct (rev (list_ascii_of_string d)); discriminate]. }
  cbn [rstrip_slashes_rev]; rewrite He, <- E, rev_involutive.
  apply string_of_list_ascii_of_string.
Qed.

(** For a non-empty output directory without a trailing slash, the file
    [convert_docx_to_pdf] expects abiword to produce is exactly the output
    path the dispatcher passes it, so the rename step is never taken on
    that path. *)
Theorem dispatcher_docx_expected input dir :
  dir <> "" -> ends_with_slash dir = false ->
  docx_output_dir (output_path input dir) = dir /\
  join (docx_output_dir (output_path input dir))
       (fst (splitext (basename input)) ++ ".pdf") = output_path input dir.
Proof.
  intros Hne He.
  assert (Hd : docx_output_dir (output_path input dir) = dir).
  { unfold docx_output_dir; rewrite Paths.output_path_slash by assumption.
    rewrite dirname_slash by (try assumption; rewrite has_char_app, stem_no_slash; reflexivity).
    destruct (String.eqb_spec dir ""); [contradiction|reflexivity]. }
  rewrite Hd; split; reflexivity.
Qed.


Lemma split_lines_acc_length cur s :
  length (Text.split_lines_acc cur s)
  = (count_occ Z.eq_dec s Text.LF + open_tail cur s)%nat.
Proof.
  revert cur; induction s as [|c s IH]; intros cur.
  - destruct cur; reflexivity.
  - cbn [Text.split_lines_acc count_occ].
    destruct (Z.eqb_spec c Text.LF) as [->|Hc].
    + cbn [length]; rewrite IH.
      destruct (Z.eq_dec Text.LF Text.LF) as [_|]; [|congruence].
      destruct s as [|d s]; [reflexivity|]; unfold open_tail.
      change (last (Text.LF :: d :: s) 0%Z) with (last (d :: s) 0%Z); lia.
    + rewrite IH.
      destruct (Z.eq_dec c Text.LF) as [|_]; [congruence|].
      f_equal; destruct s as [|d s]; unfold open_tail; cbn [last].
      * apply Z.eqb_neq in Hc; rewrite Hc; reflexivity.
      * reflexivity.
Qed.

(** The text converter writes one cell per line: as many cells as line
    feeds, plus one for a last line without a line feed; an empty file
    gives no cell. *)
Theorem text_cell_count (text : list Z) :
  length (Text.text_cells text)
  = (count_occ Z.eq_dec text Text.LF
     + match text with
       | [] => 0
       | _ => if (last text 0%Z =? Text.LF)%Z then 0 else 1
       end)%nat.
Proof.
  unfold Text.text_cells, Text.split_lines; rewrite length_map.
  rewrite split_lines_acc_length; destruct text; reflexivity.
Qed.

Lemma lookup_remove_eq p fs : lookup p (remove_file p fs) = None.
Proof.
  induction fs as [|[q c] fs IH]; simpl; [reflexivity|].
  destruct (String.eqb_spec p q) as [->|Hpq]; simpl; [exact IH|].
  apply String.eqb_neq in Hpq; rewrite Hpq; exact IH.
Qed.

Ltac split_in E :=
  repeat (match type of E with
          | context [match ?x with _ => _ end] =>
              lazymatch x with
              | context [match _ with _ => _ end] => fail
              | _ => destruct x eqn:?
              end
          end; cbv beta iota in E); try discriminate E.

(** When the image converter succeeds, the temporary JPEG
    [<input>.temp.jpg] no longer exists (a file of that name that existed
    before is gone too), and the working directory and directories are
    unchanged. *)
Theorem image_temp_removed i o env w w' :
  convert_image_to_pdf i o env w = (Ok true, w') ->
  lookup (abspath (cwd w) (i ++ ".temp.jpg")) (files w') = None /\
  cwd w' = cwd w /\ dirs w' = dirs w.
Proof.
  unfold convert_image_to_pdf, try_except.
  cbv [bind check_fault get_world put_world get_env raise ret print
       read_file write_file remove].
  intros E; split_in E.
  all: apply (f_equal snd) in E; cbn [snd] in E; subst w'; cbn [cwd dirs files stdout];
    split; [apply lookup_remove_eq|auto].
Qed.


Lemma write_file_fails env w p :
  no_faults env ->
  (str_in (abspath (cwd w) p) (dirs w) = true \/
   str_in (dirname (abspath (cwd w) p)) (dirs w) = false) ->
  exists e, forall c, write_file p c env w = (Exc e, w).
Proof.
  intros Hf H; unfold write_file.
  unfold bind, get_world, raise, check_fault; rewrite Hf.
  destruct H as [H|H]; rewrite H; [eauto|].
  destruct (str_in (abspath (cwd w) p) (dirs w)); eauto.
Qed.

Lemma read_file_fails env w p :
  no_faults env ->
  (is_dir_w w p = true \/ lookup (abspath (cwd w) p) (files w) = None) ->
  exists e, read_file p env w = (Exc e, w).
Proof.
  intros Hf H; unfold read_file.
  rewrite (bind_ok _ _ _ _ _ _ (check_fault_ok env w _ Hf)).
  unfold bind, get_world, raise, ret.
  destruct H as [H|H]; rewrite H; [eauto|].
  destruct (is_dir_w w p); eauto.
Qed.

(** A text input that is missing or is a directory: the converter logs the
    error, returns [false] and changes no file. *)
Theorem txt_unreadable_input i o env w
    (Hf : no_faults env)
    (Hin : is_dir_w w i = true \/ lookup (abspath (cwd w) i) (files w) = None) :
  exists e,
    convert_txt_to_pdf i o env w =
    (Ok false, MkWorld (cwd w) (dirs w) (files w)
                 (stdout w ++ [("Error converting text file: " ++ msg e)%string])%list).
Proof.
  destruct (read_file_fails env w i Hf Hin) as [e E].
  exists e; unfold convert_txt_to_pdf, try_except; cbv zeta.
  rewrite (bind_exc _ _ _ _ _ _ E); reflexivity.
Qed.

(** An image input that is a directory, is missing, or is not an image: the
    converter logs the error, returns [false] and changes no file; no
    temporary JPEG is created. *)
Theorem image_unreadable_input i o env w
    (Hf : no_faults env)
    (Hin : is_dir_w w i = true \/
           forall c, lookup (abspath (cwd w) i) (files w) = Some c -> is_image c = false) :
  exists e,
    convert_image_to_pdf i o env w =
    (Ok false, MkWorld (cwd w) (dirs w) (files w)
                 (stdout w ++ [("Error converting image: " ++ msg e)%string])%list).
Proof.
  unfold convert_image_to_pdf, try_except.
  destruct (lookup (abspath (cwd w) i) (files w)) as [c|] eqn:Hl.
  - destruct (is_dir_w w i) eqn:Hd.
    + destruct (read_file_fails env w i Hf (or_introl Hd)) as [e E].
      exists e; rewrite (bind_exc _ _ _ _ _ _ E); reflexivity.
    + destruct Hin as [Hin|Hin]; [discriminate|].
      specialize (Hin c eq_refl).
      rewrite (bind_ok _ _ _ _ _ _ (read_file_ok env w i c Hf Hd Hl)).
      destruct c; try discriminate Hin; eexists; reflexivity.
  - destruct (read_file_fails env w i Hf (or_intror Hl)) as [e E].
    exists e; rewrite (bind_exc _ _ _ _ _ _ E); reflexivity.
Qed.

(** When the PDF cannot be written (its path is a directory, or its
    directory does not exist), the image converter returns [false] and the
    temporary JPEG it wrote stays next to the input. *)
Theorem image_temp_left_on_output_failure i o env w fmt wd ht mode
    (Hf : no_faults env)
    (Hd : is_dir_w w i = false)
    (Hl : lookup (abspath (cwd w) i) (files w) = Some (CImage fmt wd ht mode))
    (Ht_dir : str_in (abspath (cwd w) (i ++ ".temp.jpg")) (dirs w) = false)
    (Ht_par : str_in (dirname (abspath (cwd w) (i ++ ".temp.jpg"))) (dirs w) = true)
    (Ho : str_in (abspath (cwd w) o) (dirs w) = true \/
          str_in (dirname (abspath (cwd w) o)) (dirs w) = false) :
  exists e w',
    convert_image_to_pdf i o env w = (Ok false, w') /\
    lookup (abspath (cwd w) (i ++ ".temp.jpg")) (files w')
      = Some (CImage "JPEG" wd ht "RGB") /\
    stdout w' = (stdout w ++ [("Error converting image: " ++ msg e)%string])%list.
Proof.
  unfold convert_image_to_pdf, try_except.
  rewrite (bind_ok _ _ _ _ _ _ (read_file_ok env w i _ Hf Hd Hl)).
  cbv beta iota.
  rewrite (bind_ok _ _ _ _ _ _ (to_rgb_ok env w mode Hf)); cbv zeta.
  rewrite (bind_ok _ _ _ _ _ _ (write_file_ok env w _ _ Hf Ht_dir Ht_par)).
  set (w1 := MkWorld (cwd w) (dirs w)
               (store (abspath (cwd w) (i ++ ".temp.jpg")) (CImage "JPEG" wd ht "RGB")
                  (files w)) (stdout w)).
  rewrite (bind_ok _ _ _ _ _ _
             (read_file_ok env w1 (i ++ ".temp.jpg") (CImage "JPEG" wd ht "RGB") Hf
                Ht_dir (lookup_store_eq _ _ _))).
  cbv beta iota.
  destruct (write_file_fails env w1 o Hf Ho) as [e E].
  rewrite (bind_exc _ _ _ _ _ _ (E _)).
  exists e; eexists; split; [reflexivity|].
  split; [apply lookup_store_eq|reflexivity].
Qed.


(** When the output directory does not exist, [os.chdir] fails: the
    document converter logs the [FileNotFoundError], returns [false], and
    leaves the working directory and the files unchanged. *)
Theorem docx_missing_output_dir i o env w
    (Hf : no_faults env)
    (Hod : str_in (abspath (cwd w) (docx_output_dir o)) (dirs w) = false) :
  convert_docx_to_pdf i o env w =
  (Ok false, MkWorld (cwd w) (dirs w) (files w)
               (stdout w ++ [("Error converting DOCX: " ++ msg (enoent (docx_output_dir o)))%string])%list).
Proof.
  unfold convert_docx_to_pdf, try_except; cbv zeta; fold (docx_output_dir o).
  rewrite (bind_ok _ _ _ _ _ _ (getcwd_ok env w Hf)).
  unfold bind at 1, chdir, bind at 1, check_fault; rewrite Hf.
  unfold bind at 1, get_world; cbv zeta; rewrite Hod; reflexivity.
Qed.

(** When abiword is not installed, the document converter logs the
    [FileNotFoundError] of [subprocess.run] and returns [false], with the
    working directory left at the output directory. *)
Theorem docx_missing_abiword i o env w
    (Hf : no_faults env)
    (Hod : str_in (abspath (cwd w) (docx_output_dir o)) (dirs w) = true)
    (Hab : abiword_on_path env = false) :
  convert_docx_to_pdf i o env w =
  (Ok false, MkWorld (abspath (cwd w) (docx_output_dir o)) (dirs w) (files w)
               (stdout w ++ [("Error converting DOCX: " ++ msg (enoent "abiword"))%string])%list).
Proof.
  unfold convert_docx_to_pdf, try_except; cbv zeta; fold (docx_output_dir o).
  rewrite (bind_ok _ _ _ _ _ _ (getcwd_ok env w Hf)).
  rewrite (bind_ok _ _ _ _ _ _ (chdir_ok env w _ Hf Hod)).
  unfold bind at 1, run_abiword, bind at 1, get_env; rewrite Hab; reflexivity.
Qed.

Lemma rename_ok env w a b c :
  no_faults env -> lookup (abspath (cwd w) a) (files w) = Some c ->
  str_in (dirname (abspath (cwd w) b)) (dirs w) = true ->
  rename a b env w =
  (Ok tt, MkWorld (cwd w) (dirs w)
            (store (abspath (cwd w) b) c (remove_file (abspath (cwd w) a) (files w)))
            (stdout w)).
Proof.
  intros Hf Hl Hp; unfold rename.
  rewrite (bind_ok _ _ _ _ _ _ (check_fault_ok env w _ Hf)).
  unfold bind, get_world; cbv zeta; rewrite Hl, Hp; reflexivity.
Qed.

Lemma stem_pdf_not_dot input : String.eqb (fst (splitext (basename input)) ++ ".pdf") "." = false.
Proof.
  apply String.eqb_neq.
  destruct (fst (splitext (basename input))) as [|a s]; [discriminate|].
  intros E; injection E as _ E.
  exact (Paths.append_nonempty_r s ".pdf" ltac:(discriminate) E).
Qed.

(** When abiword succeeds and writes [<basename-without-ext>.pdf] in the
    output directory, and that path differs from the requested output
    file, the document converter moves the produced file to the output
    path, restores the working directory and returns [true]. *)
Theorem docx_renames_produced_file i o env w err c
    (Hf : no_faults env)
    (Hcwd_abs : starts_with_slash (cwd w) = true)
    (Hcwd : str_in (cwd w) (dirs w) = true)
    (Hod_abs : starts_with_slash (docx_output_dir o) = true)
    (Hod : str_in (docx_output_dir o) (dirs w) = true)
    (Hab : abiword_on_path env = true)
    (Hrun : abiword_run env (docx_output_dir o) i
            = (0%Z, err, [(fst (splitext (basename i)) ++ ".pdf", c)]))
    (Hexp_dir : str_in (join (docx_output_dir o) (fst (splitext (basename i)) ++ ".pdf"))
                  (dirs w) = false)
    (Hne : String.eqb (join (docx_output_dir o) (fst (splitext (basename i)) ++ ".pdf")) o
           = false)
    (Ho_abs : starts_with_slash o = true)
    (Ho_par : str_in (dirname o) (dirs w) = true) :
  exists w',
    convert_docx_to_pdf i o env w = (Ok true, w') /\
    cwd w' = cwd w /\
    lookup o (files w') = Some c /\
    lookup (join (docx_output_dir o) (fst (splitext (basename i)) ++ ".pdf")) (files w')
      = None.
Proof.
  unfold convert_docx_to_pdf, try_except; cbv zeta; fold (docx_output_dir o).
  set (d := docx_output_dir o) in *.
  set (x := fst (splitext (basename i)) ++ ".pdf") in *.
  set (e := join d x) in *.
  assert (He_abs : starts_with_slash e = true) by (apply Paths.join_absolute; exact Hod_abs).
  assert (Hd' : abspath (cwd w) d = d) by (apply abspath_absolute; exact Hod_abs).
  assert (Hx : abspath d x = e).
  { unfold abspath, x; rewrite Paths.stem_pdf_relative, stem_pdf_not_dot; reflexivity. }
  rewrite (bind_ok _ _ _ _ _ _ (getcwd_ok env w Hf)).
  rewrite (bind_ok _ _ _ _ _ _ (chdir_ok env w d Hf ltac:(rewrite Hd'; exact Hod))).
  rewrite Hd'.
  set (w1 := MkWorld d (dirs w) (files w) (stdout w)).
  rewrite (bind_ok _ _ _ _ _ _ (run_abiword_step env w1 i 0 err _ Hab Hrun)).
  cbn [Z.eqb fold_left cwd w1 fst snd dirs files stdout]; rewrite Hx.
  set (fs := store e c (files w)).
  set (w2 := MkWorld d (dirs w) fs (stdout w)).
  assert (Hback : chdir (cwd w) env w2 = (Ok tt, MkWorld (cwd w) (dirs w) fs (stdout w))).
  { rewrite (chdir_ok env w2 (cwd w) Hf); cbn [cwd w2];
      rewrite (abspath_absolute _ _ Hcwd_abs); [reflexivity|exact Hcwd]. }
  rewrite (bind_ok _ _ _ _ _ _ Hback).
  set (w3 := MkWorld (cwd w) (dirs w) fs (stdout w)).
  assert (Hex : path_exists e env w3 = (Ok true, w3)).
  { unfold path_exists, is_file_w; cbn [cwd files w3].
    rewrite (abspath_absolute _ _ He_abs); unfold fs; rewrite lookup_store_eq.
    rewrite orb_true_r; reflexivity. }
  rewrite (bind_ok _ _ _ _ _ _ Hex); rewrite Hne; cbn [andb negb].
  assert (Hre : rename e o env w3 =
    (Ok tt, MkWorld (cwd w) (dirs w) (store o c (remove_file e fs)) (stdout w))).
  { rewrite (rename_ok env w3 e o c Hf); cbn [cwd w3 dirs files stdout];
      rewrite ?(abspath_absolute _ _ He_abs), ?(abspath_absolute _ _ Ho_abs);
      [reflexivity| |exact Ho_par].
    unfold fs; apply lookup_store_eq. }
  rewrite (bind_ok _ _ _ _ _ _ Hre).
  eexists; split; [reflexivity|split; [reflexivity|]]; cbn [files].
  split; [apply lookup_store_eq|].
  rewrite lookup_store_neq by (apply String.eqb_neq; exact Hne).
  apply lookup_remove_eq.
Qed.

Ltac split_goal :=
  repeat (match goal with
          | |- context [match ?x with _ => _ end] =>
              lazymatch x with
              | context [match _ with _ => _ end] => fail
              | _ => destruct x eqn:?
              end
          end; cbv beta iota).

(** The text converter changes no file other than its output, and never
    changes the working directory. *)
Theorem txt_writes_only_output i o env w q
    (Hq : q <> abspath (cwd w) o) :
  lookup q (files (snd (convert_txt_to_pdf i o env w))) = lookup q (files w) /\
  cwd (snd (convert_txt_to_pdf i o env w)) = cwd w.
Proof.
  unfold convert_txt_to_pdf, try_except.
  cbv [bind check_fault get_world put_world get_env raise ret print read_file write_file].
  split_goal; cbv [snd cwd dirs files stdout]; split; try reflexivity.
  all: apply lookup_store_neq; exact Hq.
Qed.

(** The image converter changes no file other than its output and its
    temporary JPEG, and never changes the working directory. *)
Theorem image_writes_only_output_and_temp i o env w q
    (Hq : q <> abspath (cwd w) o)
    (Ht : q <> abspath (cwd w) (i ++ ".temp.jpg")) :
  lookup q (files (snd (convert_image_to_pdf i o env w))) = lookup q (files w) /\
  cwd (snd (convert_image_to_pdf i o env w)) = cwd w.
Proof.
  unfold convert_image_to_pdf, try_except.
  cbv [bind check_fault get_world put_world get_env raise ret print read_file write_file
       remove].
  split_goal; cbv [snd cwd dirs files stdout]; split; try reflexivity.
  all: rewrite ?lookup_remove_neq, ?lookup_store_neq, ?lookup_remove_neq,
         ?lookup_store_neq by assumption; reflexivity.
Qed.


Lemma probe_ok env w :
  which_available env = true ->
  exists w1, check_dependencies env w = (Ok tt, w1) /\
    cwd w1 = cwd w /\ dirs w1 = dirs w /\ files w1 = files w.
Proof.
  intros Hw; unfold check_dependencies, try_except, run_which, bind, get_env.
  rewrite Hw; cbn [negb].
  destruct (abiword_on_path env); eexists; split; try reflexivity; auto.
Qed.


(** With [which] available, [main] never raises: it creates
    [<cwd>/pdf_output] only when nothing exists at that path (a regular
    file of that name prevents it), and it records one result for each
    entry of the working directory that is not a directory, not the script
    and has a supported extension. *)
Theorem main_outcome script env w
    (Hf : no_faults env)
    (Hw : which_available env = true)
    (Habs : starts_with_slash (cwd w) = true) :
  let out := join (cwd w) "pdf_output" in
  let ds := if is_dir_w w out || is_file_w w out then dirs w else out :: dirs w in
  exists c f w',
    main script env w = (Ok (c, f, summary c f), w') /\
    dirs w' = ds /\
    Permutation (c ++ f)
      (filter (eligible script (cwd w) ds) (entries (cwd w) ds (files w))).
Proof.
  cbv zeta.
  assert (Hout : starts_with_slash (join (cwd w) "pdf_output") = true)
    by (apply Paths.join_absolute; exact Habs).
  destruct (probe_ok env w Hw) as (w1 & E1 & C1 & D1 & F1).
  unfold main.
  rewrite (bind_ok _ _ _ _ _ _ E1).
  rewrite (bind_ok _ _ _ _ _ _ (getcwd_ok env w1 Hf)); rewrite C1.
  unfold bind at 1, path_exists.
  unfold is_dir_w at 1, is_file_w at 1; rewrite C1, D1, F1.
  fold (is_dir_w w (join (cwd w) "pdf_output")).
  fold (is_file_w w (join (cwd w) "pdf_output")).
  set (out := join (cwd w) "pdf_output") in *.
  set (w2 := if negb (is_dir_w w out || is_file_w w out)
             then MkWorld (cwd w) (out :: dirs w) (files w)
                    (stdout w1 ++ [("Created output directory: " ++ out)%string])%list
             else w1).
  assert (E2 : (if negb (is_dir_w w out || is_file_w w out)
                then makedirs out;; print ("Created output directory: " ++ out)
                else ret tt) env w1 = (Ok tt, w2)).
  { unfold w2; destruct (is_dir_w w out || is_file_w w out); [reflexivity|].
    cbn [negb]; unfold makedirs.
    rewrite (bind_ok _ _ _ _ _ _ (bind_ok _ _ _ _ _ _ (check_fault_ok env w1 _ Hf))).
    unfold bind, get_world, put_world, print; cbn [cwd dirs files stdout].
    rewrite C1, D1, F1, (abspath_absolute _ _ Hout); reflexivity. }
  rewrite (bind_ok _ _ _ _ _ _ E2).
  assert (C2 : cwd w2 = cwd w) by (unfold w2; destruct (_ || _); auto).
  assert (D2 : dirs w2 = if is_dir_w w out || is_file_w w out then dirs w else out :: dirs w)
    by (unfold w2; destruct (_ || _); auto).
  assert (F2 : files w2 = files w) by (unfold w2; destruct (_ || _); auto).
  unfold bind at 1, listdir, bind at 1, get_world, ret; cbv zeta.
  rewrite C2, D2, F2, (abspath_absolute _ _ Habs).
  fold (entries (cwd w) (if is_dir_w w out || is_file_w w out then dirs w else out :: dirs w)
          (files w)).
  destruct (Loop.main_loop_perm script (cwd w) out env Habs
              (entries (cwd w) (if is_dir_w w out || is_file_w w out then dirs w
                                else out :: dirs w) (files w)) [] [] w2)
    as (c & f & w' & E & D & P).
  rewrite (bind_ok _ _ _ _ _ _ E).
  exists c, f, (log_world "=== Conversion Summary ===" w'); split; [reflexivity|].
  rewrite D2 in D, P; split; [exact D|exact P].
Qed.

(** ** Witnesses *)

Lemma dotfiles_skipped_witness :
  dots 1 ++ "txt" = ".txt" /\
  process_file "pdfify.py" "/home/u" "/home/u/pdf_output" ([], []) (dots 1 ++ "txt")
    Sample.env Sample.world = (Ok ([], []), Sample.world).
Proof.
  split; [reflexivity|].
  apply (dotfiles_skipped "pdfify.py" "/home/u" "/home/u/pdf_output" ([], []) 0 "txt");
    reflexivity.
Defined.

Lemma dispatcher_docx_expected_witness :
  docx_output_dir (output_path "/home/u/report.docx" "/home/u/pdf_output")
    = "/home/u/pdf_output" /\
  join (docx_output_dir (output_path "/home/u/report.docx" "/home/u/pdf_output"))
       (fst (splitext (basename "/home/u/report.docx")) ++ ".pdf")
    = output_path "/home/u/report.docx" "/home/u/pdf_output".
Proof.
  apply (dispatcher_docx_expected "/home/u/report.docx" "/home/u/pdf_output");
    [discriminate|reflexivity].
Defined.

Lemma image_temp_removed_witness :
  exists w',
    convert_image_to_pdf "/home/u/photo.png" "/home/u/pdf_output/photo.pdf"
      Sample.env Sample.world = (Ok true, w') /\
    lookup (abspath (cwd Sample.world) ("/home/u/photo.png" ++ ".temp.jpg")) (files w')
      = None /\
    cwd w' = cwd Sample.world /\ dirs w' = dirs Sample.world.
Proof.
  exists (snd (convert_image_to_pdf "/home/u/photo.png" "/home/u/pdf_output/photo.pdf"
                 Sample.env Sample.world)).
  split; [vm_compute; reflexivity|].
  apply (image_temp_removed "/home/u/photo.png" "/home/u/pdf_output/photo.pdf"
           Sample.env Sample.world).
  vm_compute; reflexivity.
Defined.

Lemma txt_unreadable_input_witness :
  exists e,
    convert_txt_to_pdf "/home/u/missing.txt" "/home/u/pdf_output/missing.pdf"
      Sample.env Sample.world =
    (Ok false, MkWorld (cwd Sample.world) (dirs Sample.world) (files Sample.world)
                 (stdout Sample.world ++ [("Error converting text file: " ++ msg e)%string])%list).
Proof.
  apply (txt_unreadable_input "/home/u/missing.txt" "/home/u/pdf_output/missing.pdf"
           Sample.env Sample.world); [intros o; reflexivity|right; reflexivity].
Defined.

Lemma image_unreadable_input_witness :
  exists e,
    convert_image_to_pdf "/home/u/archive.zip" "/home/u/pdf_output/archive.pdf"
      Sample.env Sample.world =
    (Ok false, MkWorld (cwd Sample.world) (dirs Sample.world) (files Sample.world)
                 (stdout Sample.world ++ [("Error converting image: " ++ msg e)%string])%list).
Proof.
  apply (image_unreadable_input "/home/u/archive.zip" "/home/u/pdf_output/archive.pdf"
           Sample.env Sample.world); [intros o; reflexivity|right].
  intros c H; vm_compute in H; injection H as <-; reflexivity.
Defined.

Lemma image_temp_left_on_output_failure_witness :
  exists e w',
    convert_image_to_pdf "/home/u/photo.png" "/home/u/missing/photo.pdf"
      Sample.env Sample.world = (Ok false, w') /\
    lookup (abspath (cwd Sample.world) ("/home/u/photo.png" ++ ".temp.jpg")) (files w')
      = Some (CImage "JPEG" 800 600 "RGB") /\
    stdout w' = (stdout Sample.world ++ [("Error converting image: " ++ msg e)%string])%list.
Proof.
  apply (image_temp_left_on_output_failure "/home/u/photo.png" "/home/u/missing/photo.pdf"
           Sample.env Sample.world "PNG" 800 600 "RGBA");
    [intros o; reflexivity|reflexivity..|right; reflexivity].
Defined.

Lemma docx_missing_output_dir_witness :
  convert_docx_to_pdf "/home/u/report.docx" "/home/u/missing/report.pdf"
    Sample.env Sample.world =
  (Ok false, MkWorld (cwd Sample.world) (dirs Sample.world) (files Sample.world)
     (stdout Sample.world ++
      [("Error converting DOCX: " ++ msg (enoent (docx_output_dir "/home/u/missing/report.pdf")))%string])%list).
Proof.
  apply (docx_missing_output_dir "/home/u/report.docx" "/home/u/missing/report.pdf"
           Sample.env Sample.world); [intros o; reflexivity|reflexivity].
Defined.

(** A host with [which] but without abiword. *)
Definition no_abiword_env : Env :=
  MkEnv true false (Sample.abiword_exit 0 true) (fun _ => []) (fun _ => None).

Lemma docx_missing_abiword_witness :
  convert_docx_to_pdf "/home/u/report.docx" "/home/u/pdf_output/report.pdf"
    no_abiword_env Sample.world =
  (Ok false, MkWorld (abspath (cwd Sample.world) (docx_output_dir "/home/u/pdf_output/report.pdf"))
               (dirs Sample.world) (files Sample.world)
     (stdout Sample.world ++ [("Error converting DOCX: " ++ msg (enoent "abiword"))%string])%list).
Proof.
  apply (docx_missing_abiword "/home/u/report.docx" "/home/u/pdf_output/report.pdf"
           no_abiword_env Sample.world); [intros o; reflexivity|reflexivity|reflexivity].
Defined.

Lemma docx_renames_produced_file_witness :
  exists w',
    convert_docx_to_pdf "/home/u/report.docx" "/home/u/pdf_output/final.pdf"
      Sample.env Sample.world = (Ok true, w') /\
    cwd w' = cwd Sample.world /\
    lookup "/home/u/pdf_output/final.pdf" (files w') = Some CBlob /\
    lookup (join (docx_output_dir "/home/u/pdf_output/final.pdf")
              (fst (splitext (basename "/home/u/report.docx")) ++ ".pdf")) (files w')
      = None.
Proof.
  apply (docx_renames_produced_file "/home/u/report.docx" "/home/u/pdf_output/final.pdf"
           Sample.env Sample.world "abiword: failed to load document" CBlob);
    [intros o; reflexivity|reflexivity..].
Defined.

Lemma txt_writes_only_output_witness :
  lookup "/home/u/photo.png"
    (files (snd (convert_txt_to_pdf "/home/u/notes.txt" "/home/u/pdf_output/notes.pdf"
                   Sample.env Sample.world)))
  = lookup "/home/u/photo.png" (files Sample.world) /\
  cwd (snd (convert_txt_to_pdf "/home/u/notes.txt" "/home/u/pdf_output/notes.pdf"
              Sample.env Sample.world)) = cwd Sample.world.
Proof.
  apply (txt_writes_only_output "/home/u/notes.txt" "/home/u/pdf_output/notes.pdf"
           Sample.env Sample.world "/home/u/photo.png").
  vm_compute; discriminate.
Defined.

Lemma image_writes_only_output_and_temp_witness :
  lookup "/home/u/notes.txt"
    (files (snd (convert_image_to_pdf "/home/u/photo.png" "/home/u/pdf_output/photo.pdf"
                   Sample.env Sample.world)))
  = lookup "/home/u/notes.txt" (files Sample.world) /\
  cwd (snd (convert_image_to_pdf "/home/u/photo.png" "/home/u/pdf_output/photo.pdf"
              Sample.env Sample.world)) = cwd Sample.world.
Proof.
  apply (image_writes_only_output_and_temp "/home/u/photo.png" "/home/u/pdf_output/photo.pdf"
           Sample.env Sample.world "/home/u/notes.txt"); vm_compute; discriminate.
Defined.

Lemma main_outcome_witness :
  let w := Sample.world in
  let out := join (cwd w) "pdf_output" in
  let ds := if is_dir_w w out || is_file_w w out then dirs w else out :: dirs w in
  exists c f w',
    main "pdfify.py" Sample.env w = (Ok (c, f, summary c f), w') /\
    dirs w' = ds /\
    Permutation (c ++ f)
      (filter (eligible "pdfify.py" (cwd w) ds) (entries (cwd w) ds (files w))).
Proof.
  apply (main_outcome "pdfify.py" Sample.env Sample.world);
    [intros o; reflexivity|reflexivity|reflexivity].
Defined.

End Extras.
